(** * number_tileset.py: tile numbering of a grid-aligned tileset

    A shallow embedding of [src/number_tileset.py] and the properties of
    its two operations, [number_tileset] (labels every 16x16 tile of an
    image and saves an annotated copy) and [print_tile_reference] (prints
    the same numbering as a text grid). *)

From Stdlib Require Import ZArith Lia List Ascii String DecimalString DecimalZ.
From stdpp Require Import base option list strings gmap.

Local Open Scope string_scope.
Local Open Scope list_scope.
Local Open Scope Z_scope.

(** ** Python values *)

(** [str(n)] for a Python [int]. *)
Definition str (n : Z) : string := NilZero.string_of_int (Z.to_int n).

Fixpoint spaces (n : nat) : string :=
  match n with
  | O => ""
  | S n' => String " " (spaces n')
  end.

(** The format specification [{n:wd}]: decimal, right-justified with
    blanks to at least [w] characters, never truncated. *)
Definition format_d (w : nat) (n : Z) : string :=
  let s := str n in
  spaces (w - String.length s) +:+ s.

(** [range(n)]: empty when [n <= 0]. *)
Definition range (n : Z) : list Z := map Z.of_nat (seq 0 (Z.to_nat n)).

(** Exceptions the embedded code can raise. *)
Inductive exn : Type :=
  | ZeroDivisionError
  | UnidentifiedImageError (path : string)
  | OSError (path : string)
  | ValueError (message : string)
  | TypeError (message : string).

Inductive result (A : Type) : Type :=
  | Ok (a : A)
  | Raise (e : exn).
Arguments Ok {A} a.
Arguments Raise {A} e.

(** [a // b] on Python integers: floor division, which is [Z.div], and
    [ZeroDivisionError] for a zero divisor. *)
Definition floordiv (a b : Z) : result Z :=
  if b =? 0 then Raise ZeroDivisionError else Ok (a / b).

(** ** print_tile_reference *)

Module TileReference.

(** State of the two nested loops: the lines printed so far and the
    running [tile_number]. *)
Definition inner_step (st : string * Z) (col : Z) : string * Z :=
  let '(row_str, tile_number) := st in
  (row_str +:+ format_d 3 tile_number +:+ " ", tile_number + 1).

Definition outer_step (tiles_per_row : Z) (st : list string * Z) (row : Z)
  : list string * Z :=
  let '(out, tile_number) := st in
  let row_str := "Row " +:+ format_d 2 (row + 1) +:+ ": " in
  let '(row_str, tile_number) :=
    fold_left inner_step (range tiles_per_row) (row_str, tile_number) in
  (out ++ [row_str], tile_number).

End TileReference.

Definition newline : string := String (ascii_of_nat 10) "".

(** [print_tile_reference(width, height, tile_size=16)].  The result is
    the list of strings handed to [print], one per call, in order; an
    omitted [tile_size] is [None]. *)
Definition print_tile_reference (width height : Z) (tile_size : option Z)
  : result (list string) :=
  let tile_size := default 16 tile_size in
  match floordiv width tile_size with
  | Raise e => Raise e
  | Ok tiles_per_row =>
    match floordiv height tile_size with
    | Raise e => Raise e
    | Ok tiles_per_col =>
      let out :=
        [ newline +:+ "TILE NUMBER REFERENCE GRID:";
          "Each number represents a tile index (1-based, left to right, top to bottom)";
          "" ] in
      let tile_number := 1 in
      let '(out, tile_number) :=
        fold_left (TileReference.outer_step tiles_per_row)
                  (range tiles_per_col) (out, tile_number) in
      Ok (out ++ [newline +:+ "TOTAL TILES: " +:+ str (tile_number - 1)])
    end
  end.

(** ** os.path *)

(** [s.rfind(c)] for a one-character [c]: the highest index at which [c]
    occurs in [s], or -1. *)
Fixpoint rfind (s : string) (c : ascii) : Z :=
  match s with
  | "" => -1
  | String a s' =>
      let r := rfind s' c in
      if 0 <=? r then r + 1 else if Ascii.eqb a c then 0 else -1
  end.

(** The slices [s[:i]] and [s[i:]] for [0 <= i]. *)
Fixpoint take_str (n : nat) (s : string) : string :=
  match n, s with
  | S n', String a s' => String a (take_str n' s')
  | _, _ => ""
  end.

Fixpoint drop_str (n : nat) (s : string) : string :=
  match n, s with
  | S n', String _ s' => drop_str n' s'
  | _, _ => s
  end.

(** The loop of [genericpath._splitext] that skips the leading dots of
    the file name: [true] when a character other than the dot stands
    between [filenameIndex] and [dotIndex]. *)
Fixpoint splitext_scan (fuel : nat) (p : string) (filenameIndex dotIndex : Z)
  : bool :=
  match fuel with
  | O => false
  | S fuel' =>
      if filenameIndex <? dotIndex then
        if negb (String.eqb
                   (take_str 1 (drop_str (Z.to_nat filenameIndex) p)) ".")
        then true
        else splitext_scan fuel' p (filenameIndex + 1) dotIndex
      else false
  end.

(** [os.path.splitext(p)] of [posixpath]: separator [/], no alternative
    separator, extension separator [.]. *)
Definition splitext (p : string) : string * string :=
  let sepIndex := rfind p "/" in
  let dotIndex := rfind p "." in
  if (sepIndex <? dotIndex)
     && splitext_scan (Z.to_nat (dotIndex - (sepIndex + 1))) p
                      (sepIndex + 1) dotIndex
  then (take_str (Z.to_nat dotIndex) p, drop_str (Z.to_nat dotIndex) p)
  else (p, "").

(** ** The imaging library and the file system *)

Inductive font : Type :=
  | TrueType (name : string) (size : Z)
  | DefaultFont.

(** The calls made on an [ImageDraw] object. *)
Inductive draw_call : Type :=
  | Rectangle (xy : Z * Z * Z * Z) (fill : Z * Z * Z * Z)
  | Text (xy : Z * Z) (text : string) (fill : Z * Z * Z) (f : font).

(** Rasterisation is the library's business and is not modelled: an image
    is its size and mode ([RGB], [RGBA], [P], [L], ...), the pixel buffer
    it was decoded from, and the [ImageDraw] calls applied to it since,
    oldest first.  Size and mode are fixed when the image is decoded;
    [ImageDraw] draws in place and has no call that changes them. *)
Record image : Type := Image {
  img_size : Z * Z;
  img_mode : string;
  img_data : list Z;
  img_drawn : list draw_call
}.

(** What a path names: an image the library decodes, or a file it cannot
    identify as an image (an empty file is one). *)
Inductive file : Type :=
  | ImageFile (im : image)
  | OtherFile.

Record world : Type := World {
  files : gmap string file;
  stdout : list string
}.

(** How [Image.save] ends at a path: the file is written; or the call
    raises before the file is opened (no format for the extension, no
    right to write); or it raises after the file was opened for writing,
    when what the file held is already lost. *)
Inductive save_outcome : Type :=
  | Saved
  | Refused (e : exn)
  | Broken (e : exn).

(** What the run does not change: the fonts [ImageFont.truetype] finds,
    the text metrics behind [ImageDraw.textbbox], the exception, if any,
    with which [ImageDraw] turns down a colour tuple on an image of a
    given mode (a tuple of four on a palette or a greyscale image, for
    one), and how [Image.save] ends at each path. *)
Record env : Type := Env {
  font_found : string -> bool;
  textbbox : font -> Z * Z -> string -> Z * Z * Z * Z;
  ink_error : string -> list Z -> option exn;
  save_result : string -> save_outcome
}.

(** The paths [Image.save] writes. *)
Definition can_save (E : env) (path : string) : bool :=
  match save_result E path with
  | Saved => true
  | _ => false
  end.

(** A loop whose body can raise: the first exception ends it. *)
Definition for_each {A B} (body : A -> B -> result A) (l : list B) (a : A)
  : result A :=
  fold_left (fun r b => match r with
                        | Ok a' => body a' b
                        | Raise e => Raise e
                        end) l (Ok a).

(** The file map after a save that broke off: a file that was there is
    left empty; one that the save had created is removed again. *)
Definition emptied (path : string) (fs : gmap string file)
  : gmap string file :=
  match fs !! path with
  | Some _ => <[path := OtherFile]> fs
  | None => fs
  end.

(** State and exceptions: a raised exception keeps the effects made so
    far. *)
Definition IO (A : Type) : Type := world -> result A * world.

Definition ret {A} (a : A) : IO A := fun w => (Ok a, w).

Definition raise {A} (e : exn) : IO A := fun w => (Raise e, w).

Definition bind {A B} (m : IO A) (k : A -> IO B) : IO B :=
  fun w =>
    match m w with
    | (Ok a, w') => k a w'
    | (Raise e, w') => (Raise e, w')
    end.

(** [try: m  except: h] *)
Definition try_except {A} (m h : IO A) : IO A :=
  fun w =>
    match m w with
    | (Ok a, w') => (Ok a, w')
    | (Raise _, w') => h w'
    end.

Definition lift {A} (r : result A) : IO A := fun w => (r, w).

Notation "x <- m ;; k" := (bind m (fun x => k))
  (at level 100, m at next level, right associativity).
Notation "m ;;; k" := (bind m (fun _ => k))
  (at level 100, right associativity).

Definition print (s : string) : IO unit :=
  fun w => (Ok tt, World (files w) (stdout w ++ [s])).

(** A path stands for the file it names: two paths are two files (no
    links, no normalisation). *)
Definition os_path_exists (path : string) : IO bool :=
  fun w => (Ok (bool_decide (is_Some (files w !! path))), w).

Definition Image_open (path : string) : IO image :=
  fun w =>
    match files w !! path with
    | Some (ImageFile im) => (Ok im, w)
    | Some OtherFile => (Raise (UnidentifiedImageError path), w)
    | None => (Raise (OSError path), w)
    end.

Section Labeler.

Variable E : env.

Definition ImageFont_truetype (name : string) (size : Z) : IO font :=
  if font_found E name then ret (TrueType name size)
  else raise (OSError name).

(** [im.save(path)]: writes the file, replacing what was there, or
    raises, before or after it has opened the file for writing. *)
Definition Image_save (im : image) (path : string) : IO unit :=
  fun w =>
    match save_result E path with
    | Saved =>
        (Ok tt, World (<[path := ImageFile im]> (files w)) (stdout w))
    | Refused e => (Raise e, w)
    | Broken e => (Raise e, World (emptied path (files w)) (stdout w))
    end.

(** [draw.rectangle(xy, fill=fill)] and [draw.text(xy, text, fill=fill,
    font=f)] on the [ImageDraw] object of [im]: the colour is turned into
    ink for the mode of the image first, which can raise. *)
Definition draw_rectangle (im : image) (xy fill : Z * Z * Z * Z)
  : result image :=
  let '(r, g, b, a) := fill in
  match ink_error E (img_mode im) [r; g; b; a] with
  | Some e => Raise e
  | None =>
      Ok (Image (img_size im) (img_mode im) (img_data im)
                (img_drawn im ++ [Rectangle xy fill]))
  end.

Definition draw_text (im : image) (xy : Z * Z) (text : string)
    (fill : Z * Z * Z) (f : font) : result image :=
  let '(r, g, b) := fill in
  match ink_error E (img_mode im) [r; g; b] with
  | Some e => Raise e
  | None =>
      Ok (Image (img_size im) (img_mode im) (img_data im)
                (img_drawn im ++ [Text xy text fill f]))
  end.

(** The font chain of [number_tileset]. *)
Definition load_font : IO font :=
  try_except (ImageFont_truetype "DejaVuSans-Bold.ttf" 12)
    (try_except (ImageFont_truetype "arial.ttf" 12)
       (ret DefaultFont)).

(** The body of the inner loop: label one tile, advance the counter. *)
Definition label_tile (f : font) (tile_size row : Z) (st : image * Z)
    (col : Z) : result (image * Z) :=
  let '(numbered_img, tile_number) := st in
  let x := col * tile_size + 2 in
  let y := row * tile_size + 2 in
  let '(b0, b1, b2, b3) := textbbox E f (x, y) (str tile_number) in
  match draw_rectangle numbered_img (b0 - 1, b1 - 1, b2 + 1, b3 + 1)
                       (0, 0, 0, 180) with
  | Raise e => Raise e
  | Ok numbered_img =>
      match draw_text numbered_img (x, y) (str tile_number)
                      (255, 255, 0) f with
      | Raise e => Raise e
      | Ok numbered_img => Ok (numbered_img, tile_number + 1)
      end
  end.

Definition label_row (f : font) (tile_size tiles_per_row : Z)
    (st : image * Z) (row : Z) : result (image * Z) :=
  for_each (label_tile f tile_size row) (range tiles_per_row) st.

(** [number_tileset(tileset_path, output_path=None)].  [img.copy()] is
    the image itself, values being immutable here; the [ImageDraw] object
    is the copy it draws on. *)
Definition number_tileset (tileset_path : string)
    (output_path : option string) : IO bool :=
  found <- os_path_exists tileset_path ;;
  if negb found then
    print ("ERROR: Tileset file not found: " +:+ tileset_path) ;;;
    ret false
  else
    img <- Image_open tileset_path ;;
    let '(width, height) := img_size img in
    let numbered_img := img in
    f <- load_font ;;
    let tile_size := 16 in
    tiles_per_row <- lift (floordiv width tile_size) ;;
    tiles_per_col <- lift (floordiv height tile_size) ;;
    let tile_number := 1 in
    print ("Processing tileset: " +:+ str width +:+ "x" +:+ str height
           +:+ " pixels") ;;;
    print ("Tiles per row: " +:+ str tiles_per_row
           +:+ ", Tiles per column: " +:+ str tiles_per_col) ;;;
    print ("Total tiles: " +:+ str (tiles_per_row * tiles_per_col)) ;;;
    labelled <- lift (for_each (label_row f tile_size tiles_per_row)
                               (range tiles_per_col)
                               (numbered_img, tile_number)) ;;
    let '(numbered_img, tile_number) := labelled in
    let output_path :=
      match output_path with
      | None =>
          let base_name := fst (splitext tileset_path) in
          base_name +:+ "-numbered.png"
      | Some p => p
      end in
    Image_save numbered_img output_path ;;;
    print ("SUCCESS: Numbered tileset saved as: " +:+ output_path) ;;;
    ret true.

End Labeler.

(** ** Closed forms used by the statements *)

(** The index of the tile in 0-based [row] and [col] of a grid with
    [cols] columns. *)
Definition tile_index (cols row col : Z) : Z := row * cols + col + 1.

(** The grid positions in row-major order. *)
Definition cells (rows cols : Z) : list (Z * Z) :=
  flat_map (fun row => map (fun col => (row, col)) (range cols)) (range rows).

Definition join (l : list string) : string := fold_right String.append "" l.

(** The number tokens of a printed row: what follows the row label when
    the line is split at white space. *)
Definition number_tokens (line : string) : list string :=
  drop 2 (String.words line).

(** The last component of a path: what follows its last [/]. *)
Definition last_component (p : string) : string :=
  drop_str (Z.to_nat (rfind p "/" + 1)) p.

(** [true] when [s] holds nothing but dots. *)
Fixpoint all_dots (s : string) : bool :=
  match s with
  | "" => true
  | String a s' => Ascii.eqb a "." && all_dots s'
  end.

(** The texts an [ImageDraw] call list draws, with their anchors. *)
Definition drawn_labels (calls : list draw_call) : list (Z * Z * string) :=
  flat_map (fun c => match c with
                     | Text xy t _ _ => [(xy, t)]
                     | Rectangle _ _ => []
                     end) calls.

Fixpoint no_space (s : string) : bool :=
  match s with
  | "" => true
  | String a s' => negb (Ascii.is_space a) && no_space s'
  end.

(** The label and the tokens of the row [row] of a grid with [cols]
    columns. *)
Definition row_numbers (cols row : Z) : list Z :=
  map (tile_index cols row) (range cols).

Definition row_line (cols row : Z) : string :=
  ("Row " +:+ format_d 2 (row + 1) +:+ ": ")
  +:+ join (map (fun n => format_d 3 n +:+ " ") (row_numbers cols row)).

Definition header : list string :=
  [ newline +:+ "TILE NUMBER REFERENCE GRID:";
    "Each number represents a tile index (1-based, left to right, top to bottom)";
    "" ].

Definition add_calls (im : image) (cs : list draw_call) : image :=
  Image (img_size im) (img_mode im) (img_data im) (img_drawn im ++ cs).

Section TileCalls.

Variable E : env.
Variables (f : font) (tile_size : Z).

(** The two calls that label the tile in [row] and [col] with [n]: the
    backing rectangle first, the text over it. *)
Definition tile_calls (row col n : Z) : list draw_call :=
  let xy := (col * tile_size + 2, row * tile_size + 2) in
  let '(b0, b1, b2, b3) := textbbox E f xy (str n) in
  [ Rectangle (b0 - 1, b1 - 1, b2 + 1, b3 + 1) (0, 0, 0, 180);
    Text xy (str n) (255, 255, 0) f ].

Definition row_calls (cols row : Z) : list draw_call :=
  flat_map (fun col => tile_calls row col (tile_index cols row col))
           (range cols).

Definition grid_calls (cols rows : Z) : list draw_call :=
  flat_map (row_calls cols) (range rows).

End TileCalls.

Section Outcome.

Variable E : env.

(** The font the chain ends with. *)
Definition chosen_font : font :=
  if font_found E "DejaVuSans-Bold.ttf" then TrueType "DejaVuSans-Bold.ttf" 12
  else if font_found E "arial.ttf" then TrueType "arial.ttf" 12
  else DefaultFont.

(** The path the annotated image is saved under. *)
Definition saved_path (tileset_path : string) (output_path : option string)
  : string :=
  match output_path with
  | None => fst (splitext tileset_path) +:+ "-numbered.png"
  | Some p => p
  end.

(** The labels of a whole image: 16-pixel tiles, as many as fit. *)
Definition labels_of (im : image) : list draw_call :=
  grid_calls E chosen_font 16 (fst (img_size im) / 16)
             (snd (img_size im) / 16).

Definition annotated (im : image) : image := add_calls im (labels_of im).

(** The exception of the first colour that an image of mode [m] turns
    down: that of the rectangle's, else that of the text's. *)
Definition first_ink_error (m : string) : option exn :=
  match ink_error E m [0; 0; 0; 180] with
  | Some e => Some e
  | None => ink_error E m [255; 255; 0]
  end.

(** The exception, if any, that ends the drawing: that of the first tile;
    none when the image has no whole tile. *)
Definition draw_error (im : image) : option exn :=
  if (0 <? fst (img_size im) / 16) && (0 <? snd (img_size im) / 16)
  then first_ink_error (img_mode im)
  else None.

Definition progress (im : image) : list string :=
  let '(width, height) := img_size im in
  [ "Processing tileset: " +:+ str width +:+ "x" +:+ str height
    +:+ " pixels";
    "Tiles per row: " +:+ str (width / 16)
    +:+ ", Tiles per column: " +:+ str (height / 16);
    "Total tiles: " +:+ str (width / 16 * (height / 16)) ].

End Outcome.

(** ** The program entry *)

(** [try: m  except ... as e: h e] *)
Definition try_catch {A} (m : IO A) (h : exn -> IO A) : IO A :=
  fun w =>
    match m w with
    | (Ok a, w') => (Ok a, w')
    | (Raise e, w') => h e w'
    end.

(** A call of [print_tile_reference] inside the program: its lines go to
    the output, its exception goes on. *)
Definition call_print_tile_reference (width height : Z)
    (tile_size : option Z) : IO unit :=
  fun w =>
    match print_tile_reference width height tile_size with
    | Ok lines => (Ok tt, World (files w) (stdout w ++ lines))
    | Raise e => (Raise e, w)
    end.

Definition main_tileset_path : string := "assets/img/tileset/tileset-v1.png".

(** The lines printed after a successful run. *)
Definition legend : list string :=
  [ newline +:+ "🎉 Numbered tileset created successfully!";
    "📖 ROAD TILE IDENTIFICATION GUIDE:";
    newline +:+ "Look at your new 'tileset-v1-numbered.png' file and identify:";
    "• STRAIGHT_NS: Vertical straight road";
    "• STRAIGHT_EW: Horizontal straight road";
    "• CORNER_NE/SE/SW/NW: Corner pieces";
    "• T_NORTH/EAST/SOUTH/WEST: T-junctions";
    "• CROSS: 4-way intersection";
    "• DEAD_END_N/E/S/W: Dead ends";
    newline +:+ "📝 Reply with: 'STRAIGHT_NS = 35, STRAIGHT_EW = 36, ...'" ].

Fixpoint print_all (lines : list string) : IO unit :=
  match lines with
  | [] => ret tt
  | l :: lines' => print l ;;; print_all lines'
  end.

Section Main.

Variable E : env.

(** The two things the handlers of the entry block ask of an exception:
    whether it is an instance of [FileNotFoundError], and its text
    [str(e)]. *)
Variable is_FileNotFoundError : exn -> bool.
Variable exn_text : exn -> string.

(** The [except] clauses, tried in order. *)
Definition main_handler (tileset_path : string) (e : exn) : IO unit :=
  if is_FileNotFoundError e then
    print ("ERROR: Could not find tileset file: " +:+ tileset_path) ;;;
    print "Make sure you're running this from the love-game directory"
  else
    print ("ERROR: " +:+ exn_text e).

(** The block under [if __name__ == "__main__"]. *)
Definition main : IO unit :=
  let tileset_path := main_tileset_path in
  try_catch
    (img <- Image_open tileset_path ;;
     let '(width, height) := img_size img in
     print ("Found tileset: " +:+ str width +:+ "x" +:+ str height
            +:+ " pixels") ;;;
     call_print_tile_reference width height None ;;;
     success <- number_tileset E tileset_path None ;;
     if (success : bool) then print_all legend else ret tt)
    (main_handler tileset_path).

End Main.

(** ** A sample environment *)

Module Sample.

(** Seven units a character, a line twelve high starting three below the
    anchor. *)
Definition metrics (f : font) (xy : Z * Z) (s : string) : Z * Z * Z * Z :=
  let '(x, y) := xy in
  (x, y + 3, x + 7 * Z.of_nat (String.length s), y + 12).

(** Colour tuples fit the modes [RGB] and [RGBA]; a palette image takes
    no colour with transparency and a greyscale image no tuple at all. *)
Definition inks (mode : string) (colour : list Z) : option exn :=
  if String.eqb mode "RGB" || String.eqb mode "RGBA" then None
  else if String.eqb mode "P"
       then match colour with
            | [_; _; _; a] =>
                if a =? 255 then None
                else Some (ValueError
                             "cannot add non-opaque RGBA color to RGB palette")
            | _ => None
            end
       else Some (TypeError "color must be int or single-element tuple").

(** Only [arial.ttf] is installed; every path can be written. *)
Definition E : env :=
  Env (fun name => String.eqb name "arial.ttf") metrics inks
      (fun _ => Saved).

(** A tileset of four by two tiles. *)
Definition tileset : image := Image (64, 32) "RGBA" [7; 7; 7] [].

(** An image too narrow for a single tile. *)
Definition sliver : image := Image (15, 32) "RGBA" [9] [].

(** A palette tileset of four by two tiles. *)
Definition indexed : image := Image (64, 32) "P" [3; 1; 2] [].

Definition w0 : world :=
  World {[ "dir/tileset.png" := ImageFile tileset;
           "dir/sliver.png" := ImageFile sliver;
           "dir/indexed.png" := ImageFile indexed ]} [].

End Sample.

(** ** A sample run of the program *)

Module SampleMain.

(** Only the error for the missing tileset is a [FileNotFoundError]. *)
Definition is_FileNotFoundError (e : exn) : bool :=
  match e with
  | OSError path => String.eqb path main_tileset_path
  | _ => false
  end.

Definition exn_text (e : exn) : string :=
  match e with
  | ZeroDivisionError => "integer division or modulo by zero"
  | UnidentifiedImageError path =>
      "cannot identify image file '" +:+ path +:+ "'"
  | OSError path => "[Errno 13] Permission denied: '" +:+ path +:+ "'"
  | ValueError message => message
  | TypeError message => message
  end.

(** Nothing can be written. *)
Definition E_readonly : env :=
  Env (fun _ => false) Sample.metrics Sample.inks
      (fun path => Refused (OSError path)).

Definition w_tileset : world :=
  World {[ main_tileset_path := ImageFile Sample.tileset ]} [].

Definition w_indexed : world :=
  World {[ main_tileset_path := ImageFile Sample.indexed ]} [].

Definition w_empty : world := World ∅ [].

End SampleMain.

(** * Facts *)

(** ** Strings *)

Section Strings.

Lemma append_cons (a : ascii) (s t : string) :
  String a s +:+ t = String a (s +:+ t).
Proof. reflexivity. Qed.

Lemma append_nil_r (s : string) : s +:+ "" = s.
Proof.
  induction s as [|a s IH]; [reflexivity|].
  rewrite append_cons; congruence.
Qed.

Lemma append_assoc (s t u : string) : (s +:+ t) +:+ u = s +:+ t +:+ u.
Proof.
  induction s as [|a s IH]; [reflexivity|].
  rewrite !append_cons; congruence.
Qed.

Lemma length_append (s t : string) :
  String.length (s +:+ t) = (String.length s + String.length t)%nat.
Proof.
  induction s as [|a s IH]; [reflexivity|].
  rewrite append_cons; simpl; congruence.
Qed.

Lemma length_spaces (n : nat) : String.length (spaces n) = n.
Proof. induction n as [|n IH]; simpl; congruence. Qed.

Lemma take_drop_str (n : nat) (s : string) :
  take_str n s +:+ drop_str n s = s.
Proof.
  revert s; induction n as [|n IH]; intros [|a s]; simpl; try reflexivity.
  rewrite append_cons; f_equal; apply IH.
Qed.

(** [format_d] pads on the left only, and only up to the width. *)
Lemma format_d_length (w : nat) (n : Z) :
  String.length (format_d w n) = Nat.max w (String.length (str n)).
Proof. unfold format_d. rewrite length_append, length_spaces. lia. Qed.

End Strings.

(** ** Decimal numerals hold no white space *)

Section Numerals.

Lemma no_space_append (s t : string) :
  no_space (s +:+ t) = no_space s && no_space t.
Proof.
  induction s as [|a s IH]; [reflexivity|].
  rewrite append_cons; simpl.
  rewrite <- andb_assoc. f_equal. exact IH.
Qed.

Lemma no_space_uint (d : Decimal.uint) :
  no_space (NilEmpty.string_of_uint d) = true.
Proof. induction d; simpl; auto. Qed.

Lemma no_space_str (n : Z) : no_space (str n) = true.
Proof.
  unfold str, NilZero.string_of_int, NilZero.string_of_uint.
  destruct (Z.to_int n) as [d|d]; destruct d; simpl;
    auto using no_space_uint.
Qed.

Lemma str_nonempty (n : Z) : str n <> "".
Proof.
  unfold str, NilZero.string_of_int, NilZero.string_of_uint.
  destruct (Z.to_int n) as [d|d]; destruct d; simpl; discriminate.
Qed.

End Numerals.

(** ** Splitting a printed line at white space *)

Section Words.

Lemma rev_app_rev_app (t acc u : string) :
  String.rev_app (String.rev_app t acc) u = String.rev_app acc (t +:+ u).
Proof.
  revert acc; induction t as [|a t IH]; intros acc; [reflexivity|].
  simpl. rewrite IH. reflexivity.
Qed.

Lemma words_go_word (t acc s : string) :
  no_space t = true ->
  String.words_go (Some acc) (t +:+ s)
  = String.words_go (Some (String.rev_app t acc)) s.
Proof.
  revert acc; induction t as [|a t IH]; intros acc H; [reflexivity|].
  simpl in H. apply andb_prop in H as [Ha Ht].
  rewrite append_cons. simpl.
  destruct (Ascii.is_space a); [discriminate|].
  simpl. apply IH, Ht.
Qed.

(** A blank-free, non-empty word followed by a blank is one token. *)
Lemma words_go_token (t s : string) :
  no_space t = true -> t <> "" ->
  String.words_go None (t +:+ String " " s) = t :: String.words_go None s.
Proof.
  destruct t as [|a t]; [congruence|]. intros H _.
  simpl in H. apply andb_prop in H as [Ha Ht].
  rewrite append_cons. simpl.
  destruct (Ascii.is_space a); [discriminate|].
  simpl. rewrite words_go_word by exact Ht. simpl.
  unfold String.rev. rewrite rev_app_rev_app, append_nil_r. reflexivity.
Qed.

Lemma words_go_spaces (n : nat) (s : string) :
  String.words_go None (spaces n +:+ s) = String.words_go None s.
Proof.
  induction n as [|n IH]; [reflexivity|].
  simpl spaces. rewrite append_cons. simpl. exact IH.
Qed.

Lemma words_go_format_d (w : nat) (n : Z) (s : string) :
  String.words_go None ((format_d w n +:+ " ") +:+ s)
  = str n :: String.words_go None s.
Proof.
  unfold format_d. rewrite !append_assoc, words_go_spaces.
  change (" " +:+ s) with (String " " s).
  apply words_go_token; [apply no_space_str | apply str_nonempty].
Qed.

Lemma words_go_tokens (w : nat) (nums : list Z) :
  String.words_go None (join (map (fun n => format_d w n +:+ " ") nums))
  = map str nums.
Proof.
  induction nums as [|n nums IH]; [reflexivity|].
  simpl. rewrite words_go_format_d, IH. reflexivity.
Qed.

End Words.

(** ** The loops of print_tile_reference *)

Section ReferenceLoops.

Import TileReference.

(** The inner loop ignores [col]: from counter [k] it appends the
    tokens of [k], [k+1], ... *)
Lemma inner_loop (row_str : string) (a n : nat) (k : Z) :
  fold_left inner_step (map Z.of_nat (seq a n)) (row_str, k)
  = (row_str +:+ join (map (fun i => format_d 3 (k + Z.of_nat i) +:+ " ")
                           (seq 0 n)),
     k + Z.of_nat n).
Proof.
  revert row_str a k; induction n as [|n IH]; intros row_str a k.
  - simpl. rewrite append_nil_r. f_equal. lia.
  - simpl. rewrite IH. f_equal; [|lia].
    rewrite append_assoc. f_equal.
    change (Z.of_nat 0) with 0. rewrite Z.add_0_r. do 2 f_equal.
    rewrite <- seq_shift, map_map.
    apply map_ext; intros i. do 2 f_equal. lia.
Qed.

End ReferenceLoops.

Section ReferenceClosedForm.

Import TileReference.

(** Inside a row the running counter agrees with [tile_index]. *)
Lemma row_tokens_counter (cols : Z) (a : nat) :
  map (fun i => format_d 3 (1 + Z.of_nat a * Z.of_nat (Z.to_nat cols)
                            + Z.of_nat i) +:+ " ")
      (seq 0 (Z.to_nat cols))
  = map (fun n => format_d 3 n +:+ " ") (row_numbers cols (Z.of_nat a)).
Proof.
  unfold row_numbers, range. rewrite !map_map.
  destruct (Z_le_gt_dec cols 0) as [Hle|Hgt].
  - replace (Z.to_nat cols) with 0%nat by lia. reflexivity.
  - apply map_ext; intros i. unfold tile_index. do 2 f_equal. lia.
Qed.

Lemma outer_loop (cols : Z) (out : list string) (a n : nat) :
  fold_left (outer_step cols) (map Z.of_nat (seq a n))
            (out, 1 + Z.of_nat a * Z.of_nat (Z.to_nat cols))
  = (out ++ map (row_line cols) (map Z.of_nat (seq a n)),
     1 + Z.of_nat (a + n) * Z.of_nat (Z.to_nat cols)).
Proof.
  revert out a; induction n as [|n IH]; intros out a.
  - simpl. rewrite app_nil_r. do 3 f_equal. lia.
  - simpl. unfold range. rewrite inner_loop, row_tokens_counter.
    replace (1 + Z.of_nat a * Z.of_nat (Z.to_nat cols)
             + Z.of_nat (Z.to_nat cols))
      with (1 + Z.of_nat (S a) * Z.of_nat (Z.to_nat cols)) by lia.
    rewrite IH. f_equal.
    + rewrite <- app_assoc. reflexivity.
    + do 3 f_equal. lia.
Qed.

(** What [print_tile_reference] prints, for every non-zero tile size. *)
Lemma print_tile_reference_eq (width height tile_size : Z) :
  tile_size <> 0 ->
  print_tile_reference width height (Some tile_size)
  = Ok (header
        ++ map (row_line (width / tile_size)) (range (height / tile_size))
        ++ [newline +:+ "TOTAL TILES: "
            +:+ str (Z.of_nat (Z.to_nat (height / tile_size))
                     * Z.of_nat (Z.to_nat (width / tile_size)))]).
Proof.
  intros Hts. unfold print_tile_reference, floordiv. simpl default.
  destruct (Z.eqb_spec tile_size 0) as [|_]; [contradiction|].
  pose proof (outer_loop (width / tile_size) header 0
                (Z.to_nat (height / tile_size))) as H.
  simpl Z.of_nat in H. rewrite Z.mul_0_l, Z.add_0_r in H.
  unfold range. fold header. rewrite H. simpl Nat.add.
  rewrite <- app_assoc. do 7 f_equal. lia.
Qed.

Lemma words_go_label (r : Z) (rest : string) :
  String.words_go None (("Row " +:+ format_d 2 r +:+ ": ") +:+ rest)
  = "Row" :: (str r +:+ ":") :: String.words_go None rest.
Proof.
  unfold format_d.
  replace (("Row " +:+ (spaces (2 - String.length (str r)) +:+ str r)
            +:+ ": ") +:+ rest)
    with ("Row" +:+ String " "
            (spaces (2 - String.length (str r))
             +:+ (str r +:+ ":") +:+ String " " rest)).
  - rewrite words_go_token by (reflexivity || discriminate).
    rewrite words_go_spaces, words_go_token; [reflexivity| |].
    + rewrite no_space_append, no_space_str. reflexivity.
    + intros H. apply (f_equal String.length) in H.
      rewrite length_append in H. simpl in H. lia.
  - change (String " " ?x) with (" " +:+ x).
    change ": " with (":" +:+ " ").
    change "Row " with ("Row" +:+ " ").
    rewrite !append_assoc. reflexivity.
Qed.

(** The tokens of a printed row are the decimals of its indices. *)
Lemma row_line_tokens (cols row : Z) :
  String.words (row_line cols row)
  = "Row" :: (str (row + 1) +:+ ":") :: map str (row_numbers cols row).
Proof.
  unfold row_line, String.words.
  rewrite words_go_label, words_go_tokens. reflexivity.
Qed.

Lemma number_tokens_row_line (cols row : Z) :
  number_tokens (row_line cols row) = map str (row_numbers cols row).
Proof. unfold number_tokens. rewrite row_line_tokens. reflexivity. Qed.

End ReferenceClosedForm.

(** ** Row-major enumeration of the grid *)

Section Grid.

Lemma range_length (n : Z) : length (range n) = Z.to_nat n.
Proof. unfold range. now rewrite length_map, length_seq. Qed.

Lemma range_lookup (n i : Z) :
  0 <= i < n -> range n !! Z.to_nat i = Some i.
Proof.
  intros Hi. unfold range.
  change (map Z.of_nat) with (fmap (M:=list) Z.of_nat).
  rewrite list_lookup_fmap, lookup_seq_lt by lia.
  simpl. f_equal. lia.
Qed.

Lemma range_succ (n : nat) :
  range (Z.of_nat (S n)) = range (Z.of_nat n) ++ [Z.of_nat n].
Proof.
  unfold range. rewrite !Nat2Z.id, seq_S, map_app. reflexivity.
Qed.

Lemma range_nonpos (n : Z) : n <= 0 -> range n = [].
Proof. intros H. unfold range. now replace (Z.to_nat n) with 0%nat by lia. Qed.

Lemma seq_from (a n : nat) : seq a n = map (Nat.add a) (seq 0 n).
Proof.
  revert a; induction n as [|n IH]; intros a; simpl; [reflexivity|].
  f_equal; [lia|]. rewrite (IH (S a)), <- (seq_shift n 0), map_map.
  apply map_ext; intros i; lia.
Qed.

Lemma cells_succ (n : nat) (cols : Z) :
  cells (Z.of_nat (S n)) cols
  = cells (Z.of_nat n) cols
    ++ map (fun col => (Z.of_nat n, col)) (range cols).
Proof.
  unfold cells. rewrite range_succ, flat_map_app. simpl.
  now rewrite app_nil_r.
Qed.

Lemma cells_length (rows cols : nat) :
  length (cells (Z.of_nat rows) (Z.of_nat cols)) = (rows * cols)%nat.
Proof.
  induction rows as [|n IH]; [reflexivity|].
  rewrite cells_succ, length_app, IH, length_map, range_length. lia.
Qed.

(** The cell in [row] and [col] is the one numbered [row * cols + col]
    from zero. *)
Lemma cells_lookup (rows cols row col : Z) :
  0 <= row < rows -> 0 <= col < cols ->
  cells rows cols !! Z.to_nat (row * cols + col) = Some (row, col).
Proof.
  intros Hrow Hcol.
  rewrite <- (Z2Nat.id rows) in * by lia.
  induction (Z.to_nat rows) as [|n IH]; [lia|].
  rewrite cells_succ.
  assert (Hlen : length (cells (Z.of_nat n) cols) = Z.to_nat (Z.of_nat n * cols)).
  { rewrite <- (Z2Nat.id cols) at 1 by lia. rewrite cells_length. lia. }
  destruct (Z_lt_ge_dec row (Z.of_nat n)) as [Hlt|Hge].
  - rewrite lookup_app_l by (rewrite Hlen; nia). apply IH. lia.
  - assert (row = Z.of_nat n) as -> by lia.
    rewrite lookup_app_r by (rewrite Hlen; nia).
    rewrite Hlen.
    replace (Z.to_nat (Z.of_nat n * cols + col) - Z.to_nat (Z.of_nat n * cols))%nat
      with (Z.to_nat col) by nia.
    change (map ?g ?l) with (g <$> l).
    rewrite list_lookup_fmap, range_lookup by lia. reflexivity.
Qed.

(** Read in row-major order the indices are 1, 2, 3, ... with no gap
    and no repeat. *)
Lemma cells_indices (rows cols : Z) :
  0 <= rows -> 0 <= cols ->
  map (fun c => tile_index cols (fst c) (snd c)) (cells rows cols)
  = map Z.succ (range (rows * cols)).
Proof.
  intros Hrows Hcols.
  rewrite <- (Z2Nat.id rows) by lia.
  induction (Z.to_nat rows) as [|n IH]; [reflexivity|].
  rewrite cells_succ, map_app, IH, map_map. cbn [fst snd].
  unfold range at 3.
  replace (Z.to_nat (Z.of_nat (S n) * cols))
    with (Z.to_nat (Z.of_nat n * cols) + Z.to_nat cols)%nat by nia.
  rewrite seq_app, !map_app. f_equal. simpl Nat.add.
  unfold range. rewrite (seq_from (Z.to_nat _)), !map_map.
  apply map_ext; intros i. unfold tile_index. nia.
Qed.

End Grid.

(** ** The loops of number_tileset *)

Section Loops.

Context {A B : Type}.
Variable body : A -> B -> result A.

Lemma for_each_nil (a : A) : for_each body [] a = Ok a.
Proof. reflexivity. Qed.

Lemma for_each_raised (l : list B) (e : exn) :
  fold_left (fun r b => match r with
                        | Ok a' => body a' b
                        | Raise e' => Raise e'
                        end) l (Raise e)
  = Raise e.
Proof. induction l as [|b l IH]; simpl; [reflexivity | exact IH]. Qed.

Lemma for_each_cons (b : B) (l : list B) (a : A) :
  for_each body (b :: l) a
  = match body a b with
    | Ok a' => for_each body l a'
    | Raise e => Raise e
    end.
Proof.
  unfold for_each. simpl. destruct (body a b) as [a'|e]; [reflexivity|].
  apply for_each_raised.
Qed.

(** A body that does nothing leaves the state. *)
Lemma for_each_idle (l : list B) (a : A) :
  (forall b, body a b = Ok a) -> for_each body l a = Ok a.
Proof.
  intros Hidle. induction l as [|b l IH]; [reflexivity|].
  rewrite for_each_cons, Hidle. exact IH.
Qed.

End Loops.

Section LabelerLoops.

Variable E : env.
Variables (f : font) (tile_size : Z).

Local Abbreviation tile_calls := (tile_calls E f tile_size).
Local Abbreviation row_calls := (row_calls E f tile_size).
Local Abbreviation grid_calls := (grid_calls E f tile_size).
Local Abbreviation first_ink_error := (first_ink_error E).

Lemma flat_map_map {A B C} (g : B -> list C) (h : A -> B) (l : list A) :
  flat_map g (map h l) = flat_map (fun x => g (h x)) l.
Proof. induction l as [|x l IH]; simpl; congruence. Qed.

Lemma add_calls_nil (im : image) : add_calls im [] = im.
Proof. destruct im; unfold add_calls; simpl. now rewrite app_nil_r. Qed.

Lemma add_calls_add_calls (im : image) (cs ds : list draw_call) :
  add_calls (add_calls im cs) ds = add_calls im (cs ++ ds).
Proof. unfold add_calls; simpl. now rewrite <- app_assoc. Qed.

Lemma range_first (n : Z) : 0 < n -> exists l, range n = 0 :: l.
Proof.
  intros Hn. unfold range.
  destruct (Z.to_nat n) as [|k] eqn:Hk; [lia|].
  simpl. eauto.
Qed.

(** One tile when the mode takes both colours. *)
Lemma label_tile_drawn (row col k : Z) (im : image) :
  first_ink_error (img_mode im) = None ->
  label_tile E f tile_size row (im, k) col
  = Ok (add_calls im (tile_calls row col k), k + 1).
Proof.
  unfold first_ink_error. intros Hink.
  destruct (ink_error E (img_mode im) [0; 0; 0; 180]) eqn:Hrect;
    [discriminate|].
  unfold label_tile, tile_calls.
  destruct (textbbox E f _ _) as [[[b0 b1] b2] b3].
  unfold draw_rectangle. rewrite Hrect.
  unfold draw_text. cbn [img_mode]. rewrite Hink.
  unfold add_calls; cbn [img_size img_mode img_data img_drawn].
  now rewrite <- app_assoc.
Qed.

(** One tile when it does not: the exception of the first colour turned
    down, and nothing drawn. *)
Lemma label_tile_raises (row col k : Z) (im : image) (e : exn) :
  first_ink_error (img_mode im) = Some e ->
  label_tile E f tile_size row (im, k) col = Raise e.
Proof.
  unfold first_ink_error. intros Hink.
  unfold label_tile.
  destruct (textbbox E f _ _) as [[[b0 b1] b2] b3].
  unfold draw_rectangle.
  destruct (ink_error E (img_mode im) [0; 0; 0; 180]) eqn:Hrect.
  - congruence.
  - unfold draw_text. cbn [img_mode]. rewrite Hink. reflexivity.
Qed.

Lemma label_row_loop (row : Z) (im : image) (a n : nat) (k : Z) :
  first_ink_error (img_mode im) = None ->
  for_each (label_tile E f tile_size row) (map Z.of_nat (seq a n)) (im, k)
  = Ok (add_calls im
          (flat_map (fun i => tile_calls row (Z.of_nat (a + i))
                                         (k + Z.of_nat i))
                    (seq 0 n)),
        k + Z.of_nat n).
Proof.
  revert im a k; induction n as [|n IH]; intros im a k Hink.
  - simpl. rewrite for_each_nil, add_calls_nil. do 2 f_equal. lia.
  - cbn [map seq flat_map].
    rewrite for_each_cons, label_tile_drawn, IH, add_calls_add_calls
      by exact Hink.
    f_equal. f_equal; [|lia]. f_equal. f_equal.
    + rewrite Nat.add_0_r. change (Z.of_nat 0) with 0.
      now rewrite Z.add_0_r.
    + rewrite <- seq_shift, flat_map_map.
      apply flat_map_ext; intros i. f_equal; lia.
Qed.

Lemma label_row_drawn (cols : Z) (a : nat) (im : image) :
  first_ink_error (img_mode im) = None ->
  label_row E f tile_size cols
            (im, 1 + Z.of_nat a * Z.of_nat (Z.to_nat cols)) (Z.of_nat a)
  = Ok (add_calls im (row_calls cols (Z.of_nat a)),
        1 + Z.of_nat (S a) * Z.of_nat (Z.to_nat cols)).
Proof.
  intros Hink. unfold label_row, range.
  rewrite label_row_loop by exact Hink. f_equal. f_equal; [|lia].
  f_equal. unfold row_calls, range.
  rewrite flat_map_map.
  destruct (Z_le_gt_dec cols 0) as [Hle|Hgt].
  - replace (Z.to_nat cols) with 0%nat by lia. reflexivity.
  - apply flat_map_ext; intros i. unfold tile_index. simpl Nat.add.
    f_equal. lia.
Qed.

Lemma label_grid_loop (cols : Z) (im : image) (a n : nat) :
  first_ink_error (img_mode im) = None ->
  for_each (label_row E f tile_size cols) (map Z.of_nat (seq a n))
           (im, 1 + Z.of_nat a * Z.of_nat (Z.to_nat cols))
  = Ok (add_calls im (flat_map (row_calls cols) (map Z.of_nat (seq a n))),
        1 + Z.of_nat (a + n) * Z.of_nat (Z.to_nat cols)).
Proof.
  revert im a; induction n as [|n IH]; intros im a Hink.
  - simpl. rewrite for_each_nil, add_calls_nil. do 4 f_equal. lia.
  - cbn [map seq flat_map].
    rewrite for_each_cons, label_row_drawn, IH, add_calls_add_calls
      by exact Hink.
    do 2 f_equal. do 3 f_equal. lia.
Qed.

(** The two loops when the mode takes both colours. *)
Lemma label_grid_drawn (cols rows : Z) (im : image) :
  first_ink_error (img_mode im) = None ->
  exists k,
    for_each (label_row E f tile_size cols) (range rows) (im, 1)
    = Ok (add_calls im (grid_calls cols rows), k).
Proof.
  intros Hink.
  pose proof (label_grid_loop cols im 0 (Z.to_nat rows) Hink) as H.
  simpl Z.of_nat in H. rewrite Z.mul_0_l, Z.add_0_r in H.
  unfold range, grid_calls. rewrite H. eauto.
Qed.

(** The two loops on a grid without a tile: no call of [ImageDraw]. *)
Lemma label_grid_empty (cols rows : Z) (im : image) :
  cols <= 0 \/ rows <= 0 ->
  for_each (label_row E f tile_size cols) (range rows) (im, 1) = Ok (im, 1).
Proof.
  intros [Hc|Hr].
  - apply for_each_idle. intros row. unfold label_row.
    rewrite (range_nonpos cols Hc). reflexivity.
  - rewrite (range_nonpos rows Hr). reflexivity.
Qed.

(** The two loops when the mode turns a colour down and there is a tile:
    the first tile raises. *)
Lemma label_grid_raises (cols rows : Z) (im : image) (e : exn) :
  0 < cols -> 0 < rows ->
  first_ink_error (img_mode im) = Some e ->
  for_each (label_row E f tile_size cols) (range rows) (im, 1) = Raise e.
Proof.
  intros Hc Hr Hink.
  destruct (range_first rows Hr) as [lr ->].
  destruct (range_first cols Hc) as [lc Hlc].
  rewrite for_each_cons. unfold label_row. rewrite Hlc, for_each_cons.
  rewrite (label_tile_raises _ _ _ _ e Hink). reflexivity.
Qed.

End LabelerLoops.

(** ** One run of number_tileset *)

Section LabelerRun.

Variable E : env.

Local Abbreviation chosen_font := (chosen_font E).
Local Abbreviation annotated := (annotated E).

Lemma load_font_eq (w : world) : load_font E w = (Ok chosen_font, w).
Proof.
  unfold load_font, try_except, ImageFont_truetype, chosen_font, ret, raise.
  destruct (font_found E "DejaVuSans-Bold.ttf"); [reflexivity|].
  destruct (font_found E "arial.ttf"); reflexivity.
Qed.

Lemma can_save_Saved (path : string) :
  can_save E path = true -> save_result E path = Saved.
Proof. unfold can_save. destruct (save_result E path); congruence. Qed.

(** A mode that takes both colours raises nothing. *)
Lemma draw_error_inks (im : image) :
  ink_error E (img_mode im) [0; 0; 0; 180] = None ->
  ink_error E (img_mode im) [255; 255; 0] = None ->
  draw_error E im = None.
Proof.
  intros Hrect Htext. unfold draw_error, first_ink_error.
  rewrite Hrect, Htext. destruct (_ && _); reflexivity.
Qed.

(** An image without a whole tile raises nothing and gets no label. *)
Lemma grid_calls_empty (f : font) (tile_size cols rows : Z) :
  cols <= 0 \/ rows <= 0 -> grid_calls E f tile_size cols rows = [].
Proof.
  unfold grid_calls, row_calls. intros [Hc|Hr].
  - rewrite (range_nonpos cols Hc).
    induction (range rows) as [|row l IH]; simpl; auto.
  - rewrite (range_nonpos rows Hr). reflexivity.
Qed.

(** The two loops of a run, whatever the mode of the image. *)
Lemma label_image (im : image) :
  match draw_error E im with
  | Some e =>
      for_each (label_row E chosen_font 16 (fst (img_size im) / 16))
               (range (snd (img_size im) / 16)) (im, 1)
      = Raise e
  | None =>
      exists k,
        for_each (label_row E chosen_font 16 (fst (img_size im) / 16))
                 (range (snd (img_size im) / 16)) (im, 1)
        = Ok (annotated im, k)
  end.
Proof.
  unfold draw_error, annotated, labels_of.
  destruct (Z.ltb_spec 0 (fst (img_size im) / 16)) as [Hc|Hc];
    [destruct (Z.ltb_spec 0 (snd (img_size im) / 16)) as [Hr|Hr]|];
    cbn [andb].
  - destruct (first_ink_error E (img_mode im)) as [e|] eqn:Hink.
    + apply label_grid_raises; assumption.
    + apply label_grid_drawn, Hink.
  - exists 1. rewrite label_grid_empty, grid_calls_empty, add_calls_nil by auto.
    reflexivity.
  - exists 1. rewrite label_grid_empty, grid_calls_empty, add_calls_nil by auto.
    reflexivity.
Qed.

(** A missing path: one message, nothing else. *)
Lemma number_tileset_missing (tileset_path : string)
    (output_path : option string) (w : world) :
  files w !! tileset_path = None ->
  number_tileset E tileset_path output_path w
  = (Ok false,
     World (files w)
           (stdout w ++ ["ERROR: Tileset file not found: "
                         +:+ tileset_path])).
Proof.
  intros Hnone. unfold number_tileset, bind, os_path_exists.
  rewrite bool_decide_eq_false_2; [reflexivity|].
  rewrite Hnone. intros [x Hx]. discriminate.
Qed.

(** A path that names an image: the whole run, through the drawing and
    the save. *)
Lemma number_tileset_image (tileset_path : string)
    (output_path : option string) (w : world) (im : image) :
  files w !! tileset_path = Some (ImageFile im) ->
  number_tileset E tileset_path output_path w
  = match draw_error E im with
    | Some e => (Raise e, World (files w) (stdout w ++ progress im))
    | None =>
        match save_result E (saved_path tileset_path output_path) with
        | Saved =>
            (Ok true,
             World (<[saved_path tileset_path output_path
                      := ImageFile (annotated im)]> (files w))
                   (stdout w ++ progress im
                    ++ ["SUCCESS: Numbered tileset saved as: "
                        +:+ saved_path tileset_path output_path]))
        | Refused e => (Raise e, World (files w) (stdout w ++ progress im))
        | Broken e =>
            (Raise e,
             World (emptied (saved_path tileset_path output_path) (files w))
                   (stdout w ++ progress im))
        end
    end.
Proof.
  intros Him. unfold number_tileset, bind at 1, os_path_exists.
  rewrite bool_decide_eq_true_2 by (rewrite Him; eauto).
  cbn [negb]. unfold bind at 1, Image_open. rewrite Him.
  pose proof (label_image im) as Hloop.
  unfold progress.
  destruct (img_size im) as [width height] eqn:Hsz.
  cbn [fst snd] in Hloop.
  unfold bind at 1. rewrite load_font_eq.
  unfold bind, lift, floordiv, print, Image_save, ret.
  cbn [Z.eqb files stdout].
  destruct (draw_error E im) as [e|].
  - rewrite Hloop. rewrite <- !app_assoc. reflexivity.
  - destruct Hloop as [k ->].
    fold (saved_path tileset_path output_path).
    destruct (save_result E _); cbn [files stdout];
      rewrite <- !app_assoc; reflexivity.
Qed.

End LabelerRun.

(** Runs [number_tileset] on a path known to hold an image whose mode
    takes both colours, with a save known to succeed. *)
Ltac run_number_tileset Hfile Hrect Htext Hsave :=
  rewrite (number_tileset_image _ _ _ _ _ Hfile),
    (draw_error_inks _ _ Hrect Htext), (can_save_Saved _ _ Hsave).

(** ** The calls of a labelled grid *)

Section GridCalls.

Variable E : env.
Variables (f : font) (tile_size : Z).

Local Abbreviation tile_calls := (tile_calls E f tile_size).
Local Abbreviation grid_calls := (grid_calls E f tile_size).

Lemma grid_calls_cells (cols rows : Z) :
  grid_calls cols rows
  = flat_map (fun c => tile_calls (fst c) (snd c)
                                  (tile_index cols (fst c) (snd c)))
             (cells rows cols).
Proof.
  unfold grid_calls, cells, row_calls.
  induction (range rows) as [|row l IH]; simpl; [reflexivity|].
  rewrite flat_map_app, flat_map_map, IH. reflexivity.
Qed.

Lemma tile_calls_length (row col n : Z) : length (tile_calls row col n) = 2%nat.
Proof.
  unfold tile_calls.
  destruct (textbbox E f _ _) as [[[b0 b1] b2] b3]. reflexivity.
Qed.

Lemma drawn_labels_tile (row col n : Z) :
  drawn_labels (tile_calls row col n)
  = [((col * tile_size + 2, row * tile_size + 2), str n)].
Proof.
  unfold tile_calls.
  destruct (textbbox E f _ _) as [[[b0 b1] b2] b3]. reflexivity.
Qed.

Lemma drawn_labels_grid (cols rows : Z) :
  drawn_labels (grid_calls cols rows)
  = map (fun c => ((snd c * tile_size + 2, fst c * tile_size + 2),
                   str (tile_index cols (fst c) (snd c))))
        (cells rows cols).
Proof.
  rewrite grid_calls_cells.
  induction (cells rows cols) as [|c l IH]; simpl; [reflexivity|].
  unfold drawn_labels in *. rewrite flat_map_app, IH.
  fold (drawn_labels (tile_calls (fst c) (snd c)
                        (tile_index cols (fst c) (snd c)))).
  rewrite drawn_labels_tile. reflexivity.
Qed.

(** In a list made of blocks of two, block [k] sits at [2k] and [2k+1]. *)
Lemma flat_map_pairs_lookup {A B} (g : A -> list B) (l : list A) (k : nat)
    (x : A) :
  (forall y, length (g y) = 2%nat) ->
  l !! k = Some x ->
  flat_map g l !! (2 * k)%nat = g x !! 0%nat
  /\ flat_map g l !! (2 * k + 1)%nat = g x !! 1%nat.
Proof.
  intros Hlen. revert k; induction l as [|y l IH]; intros k Hk.
  - destruct k; discriminate.
  - destruct k as [|k]; simpl in Hk.
    + injection Hk as ->. simpl flat_map.
      rewrite !lookup_app_l by (rewrite Hlen; lia). auto.
    + simpl flat_map.
      rewrite !lookup_app_r by (rewrite Hlen; lia). rewrite Hlen.
      replace (2 * S k - 2)%nat with (2 * k)%nat by lia.
      replace (2 * S k + 1 - 2)%nat with (2 * k + 1)%nat by lia.
      apply IH, Hk.
Qed.

Lemma grid_calls_lookup (cols rows row col : Z) :
  0 <= row < rows -> 0 <= col < cols ->
  let k := Z.to_nat (row * cols + col) in
  let cs := tile_calls row col (tile_index cols row col) in
  grid_calls cols rows !! (2 * k)%nat = cs !! 0%nat
  /\ grid_calls cols rows !! (2 * k + 1)%nat = cs !! 1%nat.
Proof.
  intros Hrow Hcol k cs. rewrite grid_calls_cells.
  apply (flat_map_pairs_lookup
           (fun c => tile_calls (fst c) (snd c)
                                (tile_index cols (fst c) (snd c)))
           _ k (row, col)).
  - intros c. apply tile_calls_length.
  - apply cells_lookup; assumption.
Qed.

End GridCalls.

(** All the number tokens of the printed grid, row after row. *)
Lemma printed_numbers (cols rows : Z) :
  flat_map number_tokens (map (row_line cols) (range rows))
  = map str (map (fun c => tile_index cols (fst c) (snd c)) (cells rows cols)).
Proof.
  unfold cells. induction (range rows) as [|row l IH]; simpl; [reflexivity|].
  rewrite number_tokens_row_line, IH, !map_app. f_equal.
  unfold row_numbers. rewrite !map_map. reflexivity.
Qed.

(** ** os.path.splitext *)

Section Splitext.

Lemma rfind_lower (s : string) (c : ascii) : -1 <= rfind s c.
Proof.
  induction s as [|a s IH]; simpl; [lia|].
  destruct (Z.leb_spec 0 (rfind s c)); [lia|].
  destruct (Ascii.eqb a c); lia.
Qed.

(** [rfind] points at an occurrence, and at the last one. *)
Lemma rfind_drop_at (s : string) (c : ascii) :
  0 <= rfind s c ->
  exists t, drop_str (Z.to_nat (rfind s c)) s = String c t /\ rfind t c = -1.
Proof.
  induction s as [|a s IH]; simpl; [lia|].
  pose proof (rfind_lower s c) as Hlow.
  destruct (Z.leb_spec 0 (rfind s c)) as [Hr|Hr].
  - intros _. destruct (IH Hr) as (t & Ht & Hlast). exists t. split; [|exact Hlast].
    replace (Z.to_nat (rfind s c + 1)) with (S (Z.to_nat (rfind s c))) by lia.
    exact Ht.
  - destruct (Ascii.eqb_spec a c) as [->|Hne]; [|lia].
    intros _. exists s. split; [reflexivity | lia].
Qed.

Lemma rfind_drop_after (n : nat) (s : string) (c : ascii) :
  rfind s c < Z.of_nat n -> rfind (drop_str n s) c = -1.
Proof.
  revert s; induction n as [|n IH]; intros s H.
  - pose proof (rfind_lower s c). destruct s; simpl in *; lia.
  - destruct s as [|a s]; [reflexivity|]. simpl drop_str. apply IH.
    simpl in H. pose proof (rfind_lower s c).
    destruct (Z.leb_spec 0 (rfind s c)); lia.
Qed.

(** The two parts make up the path again. *)
Lemma splitext_append (p : string) :
  fst (splitext p) +:+ snd (splitext p) = p.
Proof.
  unfold splitext. destruct (_ && _); simpl.
  - apply take_drop_str.
  - apply append_nil_r.
Qed.

(** The extension is empty, or it is the last dot of the last path
    component with what follows it. *)
Lemma splitext_ext (p : string) :
  snd (splitext p) = ""
  \/ exists t, snd (splitext p) = String "." t
               /\ rfind t "." = -1 /\ rfind t "/" = -1.
Proof.
  unfold splitext.
  destruct (rfind p "/" <? rfind p ".") eqn:Hsep; simpl; [|now left].
  destruct (splitext_scan _ _ _ _); simpl; [|now left].
  right. apply Z.ltb_lt in Hsep. pose proof (rfind_lower p "/") as Hlow.
  destruct (rfind_drop_at p ".") as (t & Ht & Hlast); [lia|].
  exists t. repeat split; [exact Ht | exact Hlast |].
  assert (H : rfind (drop_str (Z.to_nat (rfind p ".")) p) "/" = -1)
    by (apply rfind_drop_after; lia).
  rewrite Ht in H. simpl in H.
  pose proof (rfind_lower t "/").
  destruct (Z.leb_spec 0 (rfind t "/")); lia.
Qed.

End Splitext.

(** ** Where the default output goes *)

Section DefaultOutput.

Lemma rfind_upper (s : string) (c : ascii) :
  rfind s c < Z.of_nat (String.length s).
Proof.
  induction s as [|a s IH]; simpl String.length; simpl rfind; [lia|].
  destruct (Z.leb_spec 0 (rfind s c)); [lia|].
  destruct (Ascii.eqb a c); lia.
Qed.

Lemma rfind_append_absent (s t : string) (c : ascii) :
  rfind t c = -1 -> rfind (s +:+ t) c = rfind s c.
Proof.
  intros Ht. induction s as [|a s IH]; [exact Ht|].
  rewrite append_cons. simpl. rewrite IH. reflexivity.
Qed.

Lemma rfind_append_present (s t : string) (c : ascii) :
  0 <= rfind t c ->
  rfind (s +:+ t) c = Z.of_nat (String.length s) + rfind t c.
Proof.
  intros Ht. induction s as [|a s IH];
    [change ("" +:+ t) with t; simpl String.length; lia|].
  rewrite append_cons. simpl rfind. rewrite IH.
  change (String.length (String a s)) with (S (String.length s)).
  destruct (Z.leb_spec 0 (Z.of_nat (String.length s) + rfind t c)); lia.
Qed.

Lemma rfind_take_str (n : nat) (s : string) (c : ascii) :
  rfind s c < Z.of_nat n -> rfind (take_str n s) c = rfind s c.
Proof.
  revert s; induction n as [|n IH]; intros s H.
  - pose proof (rfind_lower s c). destruct s; simpl in *; lia.
  - destruct s as [|a s]; [reflexivity|]. simpl in H |- *.
    pose proof (rfind_lower s c).
    rewrite IH; [reflexivity|].
    destruct (Z.leb_spec 0 (rfind s c)); lia.
Qed.

Lemma take_str_append (n : nat) (s t : string) :
  (n <= String.length s)%nat -> take_str n (s +:+ t) = take_str n s.
Proof.
  revert s; induction n as [|n IH]; intros s H.
  - destruct s; [destruct t|]; reflexivity.
  - destruct s as [|a s]; simpl in H; [lia|].
    rewrite append_cons. simpl. f_equal. apply IH. lia.
Qed.

Lemma take_str_take_str (n m : nat) (s : string) :
  (n <= m)%nat -> take_str n (take_str m s) = take_str n s.
Proof.
  revert m s; induction n as [|n IH]; intros m s H.
  - destruct m, s; reflexivity.
  - destruct m as [|m]; [lia|]. destruct s as [|a s]; [reflexivity|].
    simpl. f_equal. apply IH. lia.
Qed.

Lemma take_str_past (s t : string) (k : nat) :
  take_str (String.length s + k) (s +:+ t) = s +:+ take_str k t.
Proof.
  induction s as [|a s IH]; [reflexivity|].
  rewrite !append_cons. simpl. f_equal. exact IH.
Qed.

Lemma drop_str_past (s t : string) (k : nat) :
  drop_str (String.length s + k) (s +:+ t) = drop_str k t.
Proof.
  induction s as [|a s IH]; [reflexivity|].
  rewrite append_cons. simpl. exact IH.
Qed.

(** The loop of [_splitext] stops at the first character that is no
    dot. *)
Lemma splitext_scan_found (p : string) (dotIndex i : Z) (fuel : nat)
    (filenameIndex : Z) :
  filenameIndex <= i < dotIndex ->
  i - filenameIndex < Z.of_nat fuel ->
  take_str 1 (drop_str (Z.to_nat i) p) <> "." ->
  splitext_scan fuel p filenameIndex dotIndex = true.
Proof.
  revert filenameIndex; induction fuel as [|fuel IH];
    intros filenameIndex Hi Hfuel Hchar; [lia|].
  cbn [splitext_scan].
  destruct (Z.ltb_spec filenameIndex dotIndex) as [_|Hge]; [|lia].
  destruct (String.eqb (take_str 1 (drop_str (Z.to_nat filenameIndex) p)) ".")
    eqn:Hdot; cbn [negb]; [|reflexivity].
  apply String.eqb_eq in Hdot.
  apply IH; [|lia|exact Hchar].
  assert (filenameIndex <> i) by congruence. lia.
Qed.

(** The base name keeps the directory of the path. *)
Lemma splitext_base_sep (p : string) :
  rfind (fst (splitext p)) "/" = rfind p "/"
  /\ take_str (Z.to_nat (rfind p "/" + 1)) (fst (splitext p))
     = take_str (Z.to_nat (rfind p "/" + 1)) p.
Proof.
  unfold splitext.
  destruct (rfind p "/" <? rfind p ".") eqn:Hsep; simpl; [|auto].
  destruct (splitext_scan _ _ _ _); simpl; [|auto].
  apply Z.ltb_lt in Hsep. pose proof (rfind_lower p "/"). split.
  - apply rfind_take_str. lia.
  - apply take_str_take_str. lia.
Qed.


Lemma drop_str_next (n : nat) (p rest : string) (a : ascii) :
  drop_str n p = String a rest -> drop_str (S n) p = rest.
Proof.
  revert p; induction n as [|n IH]; intros p H.
  - simpl in H. subst p. reflexivity.
  - destruct p as [|b p]; [discriminate|]. simpl in H |- *. apply IH, H.
Qed.

Lemma length_drop_str (n : nat) (p : string) :
  String.length (drop_str n p) = (String.length p - n)%nat.
Proof.
  revert p; induction n as [|n IH]; intros [|b p]; simpl; auto.
Qed.

Lemma drop_str_take_str (n m : nat) (s : string) :
  drop_str n (take_str m s) = take_str (m - n) (drop_str n s).
Proof.
  revert m s; induction n as [|n IH]; intros m s.
  - rewrite Nat.sub_0_r. destruct m, s; reflexivity.
  - destruct m as [|m]; destruct s as [|a s]; simpl; try reflexivity;
      try (destruct (drop_str n s); reflexivity); try apply IH.
    destruct (m - n)%nat; reflexivity.
Qed.

Lemma rfind_drop_before (n : nat) (s : string) (c : ascii) :
  Z.of_nat n <= rfind s c ->
  rfind (drop_str n s) c = rfind s c - Z.of_nat n.
Proof.
  revert s; induction n as [|n IH]; intros s H.
  - destruct s; simpl drop_str; lia.
  - destruct s as [|a s]; [simpl in H; lia|].
    simpl in H. simpl drop_str. pose proof (rfind_lower s c).
    destruct (Z.leb_spec 0 (rfind s c)) as [Hr|Hr].
    + rewrite IH by lia. simpl rfind.
      destruct (Z.leb_spec 0 (rfind s c)); lia.
    + destruct (Ascii.eqb a c); lia.
Qed.

(** The loop of [_splitext] finds a character that is no dot exactly
    when the stretch it walks does not consist of dots. *)
Lemma splitext_scan_all_dots (p : string) (fuel k : nat) :
  (k + fuel <= String.length p)%nat ->
  splitext_scan fuel p (Z.of_nat k) (Z.of_nat (k + fuel))
  = negb (all_dots (take_str fuel (drop_str k p))).
Proof.
  revert k; induction fuel as [|fuel IH]; intros k Hlen.
  - destruct (drop_str k p); reflexivity.
  - cbn [splitext_scan].
    destruct (Z.ltb_spec (Z.of_nat k) (Z.of_nat (k + S fuel))) as [_|Hge];
      [|lia].
    rewrite Nat2Z.id.
    destruct (drop_str k p) as [|a rest] eqn:Hdrop.
    { pose proof (length_drop_str k p) as Hl. rewrite Hdrop in Hl.
      simpl in Hl. lia. }
    apply drop_str_next in Hdrop as Hnext.
    cbn [take_str all_dots].
    replace (Z.of_nat k + 1) with (Z.of_nat (S k)) by lia.
    replace (k + S fuel)%nat with (S k + fuel)%nat by lia.
    rewrite IH, Hnext by lia.
    unfold String.eqb.
    destruct (Ascii.eqb a "."); reflexivity.
Qed.

(** When [splitext] splits and when it does not: an extension is split
    off only after a character that is no dot, so that the leading dots
    of a name never start one; and it is split off whenever the last
    component has a dot after such a character. *)
Lemma splitext_when (p : string) :
  (snd (splitext p) <> ""
   -> all_dots (last_component (fst (splitext p))) = false)
  /\ (snd (splitext p) = ""
      -> rfind (last_component p) "." = -1
         \/ all_dots (take_str (Z.to_nat (rfind (last_component p) "."))
                               (last_component p)) = true).
Proof.
  pose proof (rfind_lower p "/") as Hsep.
  pose proof (rfind_upper p ".") as Hdot.
  unfold splitext, last_component.
  destruct (Z.ltb_spec (rfind p "/") (rfind p ".")) as [Hlt|Hge];
    cbn [andb].
  - pose proof (splitext_scan_all_dots p
                  (Z.to_nat (rfind p "." - (rfind p "/" + 1)))
                  (Z.to_nat (rfind p "/" + 1)) ltac:(lia)) as Hscan.
    rewrite Z2Nat.id in Hscan by lia.
    replace (Z.of_nat (Z.to_nat (rfind p "/" + 1)
                       + Z.to_nat (rfind p "." - (rfind p "/" + 1))))
      with (rfind p ".") in Hscan by lia.
    rewrite Hscan.
    destruct (all_dots _) eqn:Hall; cbn [negb fst snd].
    + split; [congruence|]. intros _. right.
      rewrite rfind_drop_before by lia.
      rewrite Z2Nat.id by lia. exact Hall.
    + split.
      * intros _. rewrite rfind_take_str by lia.
        rewrite drop_str_take_str.
        replace (Z.to_nat (rfind p ".") - Z.to_nat (rfind p "/" + 1))%nat
          with (Z.to_nat (rfind p "." - (rfind p "/" + 1))) by lia.
        exact Hall.
      * intros Hext.
        destruct (rfind_drop_at p "." ltac:(lia)) as (t & Ht & _).
        congruence.
  - cbn [fst snd]. split; [congruence|]. intros _. left.
    apply rfind_drop_after. lia.
Qed.

End DefaultOutput.

(** * The properties of the specification *)

(** ** Numbering *)

(** What [print_tile_reference] prints for pixel dimensions, which are
    not negative. *)
Lemma reference_grid (width height cellSize : Z) :
  0 < cellSize -> 0 <= width -> 0 <= height ->
  print_tile_reference width height (Some cellSize)
  = Ok (header
        ++ map (row_line (width / cellSize)) (range (height / cellSize))
        ++ [newline +:+ "TOTAL TILES: "
            +:+ str (height / cellSize * (width / cellSize))]).
Proof.
  intros Hcs Hw Hh. rewrite print_tile_reference_eq by lia.
  pose proof (Z.div_pos width cellSize Hw Hcs).
  pose proof (Z.div_pos height cellSize Hh Hcs).
  rewrite !Z2Nat.id by assumption. reflexivity.
Qed.

Lemma reference_row (cols rows row : Z) :
  0 <= row < rows ->
  map (row_line cols) (range rows) !! Z.to_nat row = Some (row_line cols row).
Proof.
  intros Hrow. change (map ?g ?l) with (g <$> l).
  rewrite list_lookup_fmap, range_lookup by assumption. reflexivity.
Qed.

Lemma row_numbers_lookup (cols row col : Z) :
  0 <= col < cols ->
  map str (row_numbers cols row) !! Z.to_nat col
  = Some (str (row * cols + col + 1)).
Proof.
  intros Hcol. unfold row_numbers. change (map ?g ?l) with (g <$> l).
  rewrite !list_lookup_fmap, range_lookup by assumption. reflexivity.
Qed.

Lemma drawn_labels_lookup (E : env) (f : font) (cols rows row col : Z) :
  0 <= row < rows -> 0 <= col < cols ->
  drawn_labels (grid_calls E f 16 cols rows) !! Z.to_nat (row * cols + col)
  = Some ((col * 16 + 2, row * 16 + 2), str (row * cols + col + 1)).
Proof.
  intros Hrow Hcol. rewrite drawn_labels_grid.
  change (map ?g ?l) with (g <$> l).
  rewrite list_lookup_fmap, cells_lookup by assumption. reflexivity.
Qed.

Lemma drawn_labels_texts (E : env) (f : font) (cols rows : Z) :
  map snd (drawn_labels (grid_calls E f 16 cols rows))
  = map str (map (fun c => tile_index cols (fst c) (snd c)) (cells rows cols)).
Proof. rewrite drawn_labels_grid, !map_map. reflexivity. Qed.

(** C1. Tile numbering is row-major, 1-based and contiguous, and the same
    in both operations.  For pixel dimensions [width] and [height] and a
    cell size above zero, [print_tile_reference] prints in row [row] and
    position [col] the index [row * cols + col + 1], all its number tokens
    read row after row are 1, 2, ..., [rows * cols], and that last index
    is the total it prints.  [number_tileset], whose tile size is 16,
    run on an image whose mode takes the colours of the rectangle and of
    the text and with an output that can be saved, draws at the tile in
    [row] and [col] the text of the same index, its texts in drawing order
    are 1, 2, ..., [rows * cols], and for a cell size of 16 the two
    sequences are equal. *)
Theorem tile_numbering_row_major (E : env) (w : world)
    (tileset_path : string) (output_path : option string) (im : image)
    (width height cellSize : Z) :
  0 < cellSize -> 0 <= width -> 0 <= height ->
  files w !! tileset_path = Some (ImageFile im) ->
  img_size im = (width, height) ->
  ink_error E (img_mode im) [0; 0; 0; 180] = None ->
  ink_error E (img_mode im) [255; 255; 0] = None ->
  can_save E (saved_path tileset_path output_path) = true ->
  exists (grid : list string) (w' : world) (calls : list draw_call),
    print_tile_reference width height (Some cellSize)
    = Ok (header ++ grid
          ++ [newline +:+ "TOTAL TILES: "
              +:+ str (height / cellSize * (width / cellSize))])
    /\ number_tileset E tileset_path output_path w = (Ok true, w')
    /\ files w' !! saved_path tileset_path output_path
       = Some (ImageFile (Image (img_size im) (img_mode im) (img_data im)
                                (img_drawn im ++ calls)))
    /\ (forall row col,
           0 <= row < height / cellSize -> 0 <= col < width / cellSize ->
           exists line,
             grid !! Z.to_nat row = Some line
             /\ number_tokens line !! Z.to_nat col
                = Some (str (row * (width / cellSize) + col + 1)))
    /\ (forall row col,
           0 <= row < height / 16 -> 0 <= col < width / 16 ->
           drawn_labels calls !! Z.to_nat (row * (width / 16) + col)
           = Some ((col * 16 + 2, row * 16 + 2),
                   str (row * (width / 16) + col + 1)))
    /\ flat_map number_tokens grid
       = map str (map Z.succ (range (height / cellSize * (width / cellSize))))
    /\ map snd (drawn_labels calls)
       = map str (map Z.succ (range (height / 16 * (width / 16))))
    /\ (cellSize = 16 ->
        flat_map number_tokens grid = map snd (drawn_labels calls)).
Proof.
  intros Hcs Hw Hh Hfile Hsize Hrect Htext Hsave.
  assert (Hdiv : forall a b, 0 <= a -> 0 < b -> 0 <= a / b)
    by (intros; apply Z.div_pos; assumption).
  exists (map (row_line (width / cellSize)) (range (height / cellSize))).
  do 2 eexists.
  split; [apply reference_grid; assumption|].
  run_number_tileset Hfile Hrect Htext Hsave.
  split; [reflexivity|]. cbn [files]. rewrite lookup_insert_eq.
  split; [reflexivity|].
  unfold labels_of. rewrite Hsize. cbn [fst snd].
  repeat split.
  - intros row col Hrow Hcol. exists (row_line (width / cellSize) row).
    split; [apply reference_row; assumption|].
    rewrite number_tokens_row_line. apply row_numbers_lookup, Hcol.
  - intros row col Hrow Hcol. apply drawn_labels_lookup; assumption.
  - rewrite printed_numbers, cells_indices by (apply Hdiv; lia).
    reflexivity.
  - rewrite drawn_labels_texts, cells_indices by (apply Hdiv; lia).
    reflexivity.
  - intros ->. rewrite printed_numbers, drawn_labels_texts. reflexivity.
Qed.

Lemma tile_numbering_row_major_witness :
  exists grid calls,
    print_tile_reference 64 32 (Some 16)
    = Ok (header ++ grid ++ [newline +:+ "TOTAL TILES: 8"])
    /\ flat_map number_tokens grid
       = ["1"; "2"; "3"; "4"; "5"; "6"; "7"; "8"]
    /\ map snd (drawn_labels calls)
       = ["1"; "2"; "3"; "4"; "5"; "6"; "7"; "8"].
Proof.
  destruct (tile_numbering_row_major Sample.E Sample.w0 "dir/tileset.png"
              None Sample.tileset 64 32 16)
    as (grid & w' & calls & Hout & _ & _ & _ & _ & Hseq & Hlabels & _);
    [lia | lia | lia | reflexivity | reflexivity | reflexivity | reflexivity
    | reflexivity |].
  exists grid, calls. split; [exact Hout|]. split; [exact Hseq|].
  exact Hlabels.
Defined.

(** ** The printed grid *)

(** C2. For pixel dimensions [width] and [height] and a cell size above
    zero, [print_tile_reference] prints, after its heading, exactly
    [height div cellSize] row lines and then the total line.  Each row
    line is its label followed by exactly [width div cellSize] number
    tokens; a token is the decimal numeral right-justified with blanks to
    three characters (wider only when the numeral is) and followed by one
    blank, so that splitting the line at blanks gives back the numerals.
    The total printed is [(width div cellSize) * (height div cellSize)]. *)
Theorem print_tile_reference_shape (width height cellSize : Z) :
  0 < cellSize -> 0 <= width -> 0 <= height ->
  exists grid,
    print_tile_reference width height (Some cellSize)
    = Ok (header ++ grid
          ++ [newline +:+ "TOTAL TILES: "
              +:+ str (width / cellSize * (height / cellSize))])
    /\ Z.of_nat (length grid) = height / cellSize
    /\ forall (i : nat) (line : string),
         grid !! i = Some line ->
         exists nums : list Z,
           Z.of_nat (length nums) = width / cellSize
           /\ line = ("Row " +:+ format_d 2 (Z.of_nat i + 1) +:+ ": ")
                     +:+ join (map (fun n => format_d 3 n +:+ " ") nums)
           /\ number_tokens line = map str nums
           /\ forall n, In n nums ->
                format_d 3 n
                = spaces (3 - String.length (str n)) +:+ str n
                /\ String.length (format_d 3 n)
                   = Nat.max 3 (String.length (str n)).
Proof.
  intros Hcs Hw Hh.
  pose proof (Z.div_pos width cellSize Hw Hcs) as Hcols.
  pose proof (Z.div_pos height cellSize Hh Hcs) as Hrows.
  exists (map (row_line (width / cellSize)) (range (height / cellSize))).
  split; [|split].
  - rewrite (Z.mul_comm (width / cellSize)).
    apply reference_grid; assumption.
  - rewrite length_map, range_length. lia.
  - intros i line Hline.
    change (map ?g ?l) with (g <$> l) in Hline.
    rewrite list_lookup_fmap in Hline.
    destruct (range (height / cellSize) !! i) as [row|] eqn:Hrow;
      [|discriminate].
    injection Hline as <-.
    assert (row = Z.of_nat i) as ->.
    { unfold range in Hrow. change (map ?g ?l) with (g <$> l) in Hrow.
      rewrite list_lookup_fmap in Hrow.
      destruct (seq 0 (Z.to_nat (height / cellSize)) !! i) as [j|] eqn:Hj;
        [|discriminate].
      apply lookup_seq in Hj as [-> _]. injection Hrow as <-. reflexivity. }
    exists (row_numbers (width / cellSize) (Z.of_nat i)).
    split; [|split; [|split]].
    + unfold row_numbers. rewrite length_map, range_length. lia.
    + reflexivity.
    + apply number_tokens_row_line.
    + intros n _. split; [reflexivity | apply format_d_length].
Qed.

Lemma print_tile_reference_shape_witness :
  exists grid,
    print_tile_reference 64 32 (Some 16)
    = Ok (header ++ grid ++ [newline +:+ "TOTAL TILES: 8"])
    /\ Z.of_nat (length grid) = 2.
Proof.
  destruct (print_tile_reference_shape 64 32 16) as (grid & Hout & Hlen & _);
    [lia | lia | lia |].
  exists grid. split; [exact Hout | exact Hlen].
Defined.

(** C4, as the code has it.  For width 64, height 32 and cell size 16
    there are 4 columns and 2 rows, and the two grid lines end in the
    blank that follows every number token; the total printed is 8. *)
Theorem print_tile_reference_64_32_16 :
  64 / 16 = 4 /\ 32 / 16 = 2
  /\ print_tile_reference 64 32 (Some 16)
     = Ok (header
           ++ [ "Row  1:   1   2   3   4 ";
                "Row  2:   5   6   7   8 " ]
           ++ [newline +:+ "TOTAL TILES: 8"]).
Proof. repeat split. Qed.

(** C4, as the specification states it: the output is not the heading,
    the two lines stopping at their last digit, and the total. *)
Lemma print_tile_reference_64_32_16_stripped :
  print_tile_reference 64 32 (Some 16)
  <> Ok (header
         ++ [ "Row  1:   1   2   3   4";
              "Row  2:   5   6   7   8" ]
         ++ [newline +:+ "TOTAL TILES: 8"]).
Proof. intros H. discriminate H. Qed.

(** ** A missing source *)

(** C3. On a path that names nothing [number_tileset] returns [False]
    and prints the error; the files are left as they were, and nothing
    else is printed: no load, no drawing, no save. *)
Theorem number_tileset_missing_path (E : env) (w : world)
    (tileset_path : string) (output_path : option string) :
  files w !! tileset_path = None ->
  exists w',
    number_tileset E tileset_path output_path w = (Ok false, w')
    /\ files w' = files w
    /\ stdout w'
       = stdout w ++ ["ERROR: Tileset file not found: " +:+ tileset_path].
Proof.
  intros Hnone. eexists.
  rewrite number_tileset_missing by exact Hnone.
  repeat split.
Qed.

Lemma number_tileset_missing_path_witness :
  exists w',
    number_tileset Sample.E "dir/nothing.png" None Sample.w0 = (Ok false, w')
    /\ files w' = files Sample.w0
    /\ stdout w' = ["ERROR: Tileset file not found: dir/nothing.png"].
Proof.
  exact (number_tileset_missing_path Sample.E Sample.w0 "dir/nothing.png"
           None eq_refl).
Defined.

(** ** The saved image *)

(** C5. The image [number_tileset] saves has the pixel dimensions [W] by
    [H] of the source, for every source image that can be labelled and
    saved, and so for those whose dimensions the cell size divides; mode
    and pixel buffer are the source's too, with the labels drawn on it.
    Between opening and saving the run copies the image and draws on the
    copy, and does nothing else to it: labelling never resizes the
    canvas. *)
Theorem number_tileset_keeps_size (E : env) (w : world)
    (tileset_path : string) (output_path : option string) (im : image)
    (W H : Z) :
  files w !! tileset_path = Some (ImageFile im) ->
  img_size im = (W, H) ->
  ink_error E (img_mode im) [0; 0; 0; 180] = None ->
  ink_error E (img_mode im) [255; 255; 0] = None ->
  can_save E (saved_path tileset_path output_path) = true ->
  exists w' im',
    number_tileset E tileset_path output_path w = (Ok true, w')
    /\ files w' !! saved_path tileset_path output_path = Some (ImageFile im')
    /\ img_size im' = (W, H)
    /\ img_mode im' = img_mode im
    /\ img_data im' = img_data im.
Proof.
  intros Hfile Hsize Hrect Htext Hsave. do 2 eexists.
  run_number_tileset Hfile Hrect Htext Hsave.
  split; [reflexivity|]. cbn [files]. rewrite lookup_insert_eq.
  split; [reflexivity|]. split; [exact Hsize|]. split; reflexivity.
Qed.

Lemma number_tileset_keeps_size_witness :
  exists w' im',
    number_tileset Sample.E "dir/tileset.png" None Sample.w0 = (Ok true, w')
    /\ files w' !! "dir/tileset-numbered.png" = Some (ImageFile im')
    /\ img_size im' = (64, 32)
    /\ img_mode im' = "RGBA"
    /\ img_data im' = [7; 7; 7].
Proof.
  exact (number_tileset_keeps_size Sample.E Sample.w0 "dir/tileset.png" None
           Sample.tileset 64 32 eq_refl eq_refl eq_refl eq_refl eq_refl).
Defined.

(** C6. With no output path given, [number_tileset] saves under the
    source path without its extension, followed by [-numbered.png]:
    [dir/tileset.png] gives [dir/tileset-numbered.png].  The extension is
    what [os.path.splitext] splits off the path, [base_name] being the
    rest: nothing, or the last dot of the last path component with the
    characters after it.  It is split off only when a character other
    than a dot stands before that dot in the component, so that
    [dir/.hidden] gives [dir/.hidden-numbered.png]; and it is split off
    whenever one does.  No other path is written, and the path is the one
    reported. *)
Theorem number_tileset_default_path (E : env) (w : world)
    (tileset_path base_name ext : string) (im : image) :
  files w !! tileset_path = Some (ImageFile im) ->
  ink_error E (img_mode im) [0; 0; 0; 180] = None ->
  ink_error E (img_mode im) [255; 255; 0] = None ->
  splitext tileset_path = (base_name, ext) ->
  can_save E (base_name +:+ "-numbered.png") = true ->
  tileset_path = base_name +:+ ext
  /\ (ext = ""
      \/ exists t, ext = String "." t
                   /\ rfind t "." = -1 /\ rfind t "/" = -1)
  /\ (ext <> "" -> all_dots (last_component base_name) = false)
  /\ (ext = ""
      -> rfind (last_component tileset_path) "." = -1
         \/ all_dots (take_str
                        (Z.to_nat (rfind (last_component tileset_path) "."))
                        (last_component tileset_path)) = true)
  /\ saved_path "dir/tileset.png" None = "dir/tileset-numbered.png"
  /\ saved_path "dir/.hidden" None = "dir/.hidden-numbered.png"
  /\ exists w' im',
       number_tileset E tileset_path None w = (Ok true, w')
       /\ files w'
          = <[base_name +:+ "-numbered.png" := ImageFile im']> (files w)
       /\ last (stdout w')
          = Some ("SUCCESS: Numbered tileset saved as: "
                  +:+ base_name +:+ "-numbered.png").
Proof.
  intros Hfile Hrect Htext Hsplit Hsave.
  pose proof (splitext_append tileset_path) as Happ.
  pose proof (splitext_ext tileset_path) as Hext.
  pose proof (splitext_when tileset_path) as [Hsome Hnone].
  assert (Hpath : saved_path tileset_path None
                  = base_name +:+ "-numbered.png")
    by (unfold saved_path; rewrite Hsplit; reflexivity).
  rewrite Hsplit in Happ, Hext, Hsome, Hnone.
  cbn [fst snd] in Happ, Hext, Hsome, Hnone.
  split; [symmetry; exact Happ|]. split; [exact Hext|].
  split; [exact Hsome|]. split; [exact Hnone|].
  split; [reflexivity|]. split; [reflexivity|].
  rewrite <- Hpath in Hsave |- *. do 2 eexists.
  run_number_tileset Hfile Hrect Htext Hsave.
  split; [reflexivity|]. cbn [files stdout].
  split; [reflexivity|].
  rewrite !app_assoc. apply last_snoc.
Qed.

Lemma number_tileset_default_path_witness :
  exists w' im',
    number_tileset Sample.E "dir/tileset.png" None Sample.w0 = (Ok true, w')
    /\ files w'
       = <["dir/tileset-numbered.png" := ImageFile im']> (files Sample.w0).
Proof.
  destruct (number_tileset_default_path Sample.E Sample.w0 "dir/tileset.png"
              "dir/tileset" ".png" Sample.tileset
              eq_refl eq_refl eq_refl eq_refl eq_refl)
    as (_ & _ & _ & _ & _ & _ & w' & im' & Hrun & Hfiles & _).
  exists w', im'. split; [exact Hrun | exact Hfiles].
Defined.

(** C7. For the tile in 0-based [row] and [col], [number_tileset] draws
    first a rectangle filled with (0, 0, 0, 180) that is the bounding box
    of the index text at its anchor, grown by one unit on each of the four
    sides, and then the text itself, anchored at
    [(col * 16 + 2, row * 16 + 2)]; this on every image whose mode takes
    the two colours, the calls being those of the image saved when the
    output can be saved. *)
Theorem number_tileset_anchor_and_backing (E : env) (w : world)
    (tileset_path : string) (output_path : option string) (im : image)
    (W H : Z) :
  files w !! tileset_path = Some (ImageFile im) ->
  img_size im = (W, H) ->
  ink_error E (img_mode im) [0; 0; 0; 180] = None ->
  ink_error E (img_mode im) [255; 255; 0] = None ->
  can_save E (saved_path tileset_path output_path) = true ->
  exists w' calls,
    number_tileset E tileset_path output_path w = (Ok true, w')
    /\ files w' !! saved_path tileset_path output_path
       = Some (ImageFile (Image (img_size im) (img_mode im) (img_data im)
                                (img_drawn im ++ calls)))
    /\ forall row col b0 b1 b2 b3,
         0 <= row < H / 16 -> 0 <= col < W / 16 ->
         let n := row * (W / 16) + col + 1 in
         let anchor := (col * 16 + 2, row * 16 + 2) in
         let k := Z.to_nat (row * (W / 16) + col) in
         textbbox E (chosen_font E) anchor (str n) = (b0, b1, b2, b3) ->
         calls !! (2 * k)%nat
         = Some (Rectangle (b0 - 1, b1 - 1, b2 + 1, b3 + 1) (0, 0, 0, 180))
         /\ calls !! (2 * k + 1)%nat
            = Some (Text anchor (str n) (255, 255, 0) (chosen_font E)).
Proof.
  intros Hfile Hsize Hrect Htext Hsave. do 2 eexists.
  run_number_tileset Hfile Hrect Htext Hsave.
  split; [reflexivity|]. cbn [files]. rewrite lookup_insert_eq.
  split; [reflexivity|].
  intros row col b0 b1 b2 b3 Hrow Hcol Hbox.
  unfold labels_of. rewrite Hsize. cbn [fst snd].
  destruct (grid_calls_lookup E (chosen_font E) 16 (W / 16) (H / 16) row col
              Hrow Hcol) as [H0 H1].
  cbv zeta in H0, H1. rewrite H0, H1.
  unfold tile_calls, tile_index. rewrite Hbox.
  split; reflexivity.
Qed.

Lemma number_tileset_anchor_and_backing_witness :
  exists w' calls,
    number_tileset Sample.E "dir/tileset.png" None Sample.w0 = (Ok true, w')
    /\ files w' !! "dir/tileset-numbered.png"
       = Some (ImageFile (Image (64, 32) "RGBA" [7; 7; 7] calls))
    /\ calls !! 12%nat = Some (Rectangle (33, 20, 42, 31) (0, 0, 0, 180))
    /\ calls !! 13%nat
       = Some (Text (34, 18) "7" (255, 255, 0) (TrueType "arial.ttf" 12)).
Proof.
  destruct (number_tileset_anchor_and_backing Sample.E Sample.w0
              "dir/tileset.png" None Sample.tileset 64 32
              eq_refl eq_refl eq_refl eq_refl eq_refl)
    as (w' & calls & Hrun & Hfiles & Hcalls).
  exists w', calls. split; [exact Hrun|]. split; [exact Hfiles|].
  assert (Hrow : 0 <= 1 < 32 / 16) by (change (32 / 16) with 2; lia).
  assert (Hcol : 0 <= 2 < 64 / 16) by (change (64 / 16) with 4; lia).
  pose proof (Hcalls 1 2 34 21 41 30 Hrow Hcol) as Hcell.
  exact (Hcell eq_refl).
Defined.

(** ** Running twice *)

(** C8. Two runs of [number_tileset] on the same source image, with the
    default output path and in the same environment, are two runs that
    both succeed, save under the same path and save the same image: the
    source image with the same calls of [ImageDraw] applied to it.  The
    two runs may start from any two states of the files and of the
    output that hold that image at the source path; the second may find
    the output of the first, or anything else, at the output path, and
    writes over it.  What a run saves depends on the source image alone.
    The rendering of the calls is the library's and is not part of the
    statement. *)
Theorem number_tileset_twice (E : env) (w1 w2 : world)
    (tileset_path : string) (im : image) :
  files w1 !! tileset_path = Some (ImageFile im) ->
  files w2 !! tileset_path = Some (ImageFile im) ->
  ink_error E (img_mode im) [0; 0; 0; 180] = None ->
  ink_error E (img_mode im) [255; 255; 0] = None ->
  can_save E (saved_path tileset_path None) = true ->
  exists w1' w2' calls,
    number_tileset E tileset_path None w1 = (Ok true, w1')
    /\ number_tileset E tileset_path None w2 = (Ok true, w2')
    /\ files w1'
       = <[saved_path tileset_path None
           := ImageFile (Image (img_size im) (img_mode im) (img_data im)
                               (img_drawn im ++ calls))]> (files w1)
    /\ files w2'
       = <[saved_path tileset_path None
           := ImageFile (Image (img_size im) (img_mode im) (img_data im)
                               (img_drawn im ++ calls))]> (files w2).
Proof.
  intros Hfile1 Hfile2 Hrect Htext Hsave. do 3 eexists.
  run_number_tileset Hfile1 Hrect Htext Hsave.
  split; [reflexivity|].
  run_number_tileset Hfile2 Hrect Htext Hsave.
  split; [reflexivity|]. cbn [files]. split; reflexivity.
Qed.

(** The second run started where the first ended. *)
Lemma number_tileset_twice_witness :
  exists w1 w2 out,
    number_tileset Sample.E "dir/tileset.png" None Sample.w0 = (Ok true, w1)
    /\ number_tileset Sample.E "dir/tileset.png" None w1 = (Ok true, w2)
    /\ files w1 !! "dir/tileset-numbered.png" = Some (ImageFile out)
    /\ files w2 !! "dir/tileset-numbered.png" = Some (ImageFile out).
Proof.
  destruct (number_tileset_twice Sample.E Sample.w0
              (snd (number_tileset Sample.E "dir/tileset.png" None Sample.w0))
              "dir/tileset.png" Sample.tileset
              eq_refl eq_refl eq_refl eq_refl eq_refl)
    as (w1 & w2 & calls & H1 & H2 & Hf1 & Hf2).
  exists w1, w2. eexists.
  split; [exact H1|]. rewrite H1 in H2. cbn [snd] in H2.
  split; [exact H2|].
  rewrite Hf1, Hf2. split; apply lookup_insert_eq.
Defined.

(** ** An image without a whole tile *)

(** C9. When the source is narrower or lower than one tile,
    [number_tileset] makes no drawing call: the image it saves under the
    output path is the source image, unchanged, no other file is touched,
    and it returns [True]. *)
Theorem number_tileset_no_tile (E : env) (w : world) (tileset_path : string)
    (output_path : option string) (im : image) (W H : Z) :
  files w !! tileset_path = Some (ImageFile im) ->
  img_size im = (W, H) ->
  W < 16 \/ H < 16 ->
  can_save E (saved_path tileset_path output_path) = true ->
  exists w',
    number_tileset E tileset_path output_path w = (Ok true, w')
    /\ files w'
       = <[saved_path tileset_path output_path := ImageFile im]> (files w).
Proof.
  intros Hfile Hsize Hsmall Hsave.
  assert (Hnone : labels_of E im = []).
  { unfold labels_of. rewrite Hsize. cbn [fst snd]. apply grid_calls_empty.
    destruct Hsmall as [HW|HH]; [left | right].
    - enough (W / 16 < 1) by lia. apply Z.div_lt_upper_bound; lia.
    - enough (H / 16 < 1) by lia. apply Z.div_lt_upper_bound; lia. }
  assert (Hdraw : draw_error E im = None).
  { unfold draw_error. rewrite Hsize. cbn [fst snd].
    destruct Hsmall as [HW|HH].
    - assert (W / 16 < 1) by (apply Z.div_lt_upper_bound; lia).
      destruct (Z.ltb_spec 0 (W / 16)); [lia | reflexivity].
    - assert (H / 16 < 1) by (apply Z.div_lt_upper_bound; lia).
      destruct (Z.ltb_spec 0 (H / 16)); [lia|].
      destruct (0 <? W / 16); reflexivity. }
  eexists.
  rewrite (number_tileset_image _ _ _ _ _ Hfile), Hdraw,
    (can_save_Saved _ _ Hsave).
  split; [reflexivity|]. cbn [files].
  unfold annotated. rewrite Hnone, add_calls_nil. reflexivity.
Qed.

Lemma number_tileset_no_tile_witness :
  exists w',
    number_tileset Sample.E "dir/sliver.png" None Sample.w0 = (Ok true, w')
    /\ files w'
       = <["dir/sliver-numbered.png" := ImageFile Sample.sliver]>
           (files Sample.w0).
Proof.
  destruct (number_tileset_no_tile Sample.E Sample.w0 "dir/sliver.png" None
              Sample.sliver 15 32 eq_refl eq_refl)
    as (w' & Hrun & Hfiles); [left; lia | reflexivity |].
  exists w'. split; [exact Hrun | exact Hfiles].
Defined.

(** ** The tile size *)

(** C10. [number_tileset] has no tile-size argument: every run on an
    image of [W] by [H] pixels reports a grid of [W div 16] columns and
    [H div 16] rows, whether or not the drawing and the save succeed
    afterwards, and when they do the labels saved are those of that grid
    of 16-pixel tiles.  [print_tile_reference] takes the tile size as an
    argument, 16 when it is left out, and prints the grid of
    [W div tile_size] columns and [H div tile_size] rows. *)
Theorem tile_size_fixed_in_number_tileset (E : env) (w : world)
    (tileset_path : string) (output_path : option string) (im : image)
    (W H : Z) :
  files w !! tileset_path = Some (ImageFile im) ->
  img_size im = (W, H) ->
  (stdout (snd (number_tileset E tileset_path output_path w))
     !! (length (stdout w) + 1)%nat
   = Some ("Tiles per row: " +:+ str (W / 16)
           +:+ ", Tiles per column: " +:+ str (H / 16)))
  /\ (ink_error E (img_mode im) [0; 0; 0; 180] = None ->
      ink_error E (img_mode im) [255; 255; 0] = None ->
      can_save E (saved_path tileset_path output_path) = true ->
      exists w',
        number_tileset E tileset_path output_path w = (Ok true, w')
        /\ files w' !! saved_path tileset_path output_path
           = Some (ImageFile
                     (add_calls im
                        (grid_calls E (chosen_font E) 16 (W / 16) (H / 16)))))
  /\ print_tile_reference W H None = print_tile_reference W H (Some 16)
  /\ forall tile_size, tile_size <> 0 ->
       exists total,
         print_tile_reference W H (Some tile_size)
         = Ok (header
               ++ map (row_line (W / tile_size)) (range (H / tile_size))
               ++ [total]).
Proof.
  intros Hfile Hsize. split; [|split; [|split]].
  - rewrite (number_tileset_image E _ _ _ im Hfile).
    assert (Hline : forall rest,
               (stdout w ++ progress im ++ rest)
                 !! (length (stdout w) + 1)%nat
               = Some ("Tiles per row: " +:+ str (W / 16)
                       +:+ ", Tiles per column: " +:+ str (H / 16))).
    { intros rest. rewrite lookup_app_r by lia.
      replace (length (stdout w) + 1 - length (stdout w))%nat
        with 1%nat by lia.
      unfold progress. rewrite Hsize. reflexivity. }
    destruct (draw_error E im); [|destruct (save_result E _)];
      cbn [snd stdout]; try apply Hline.
    all: rewrite <- (app_nil_r (progress im)); apply Hline.
  - intros Hrect Htext Hsave. eexists.
    run_number_tileset Hfile Hrect Htext Hsave.
    split; [reflexivity|]. cbn [files]. rewrite lookup_insert_eq.
    unfold annotated, labels_of. rewrite Hsize. reflexivity.
  - reflexivity.
  - intros tile_size Hts. eexists.
    apply print_tile_reference_eq, Hts.
Qed.

Lemma tile_size_fixed_in_number_tileset_witness :
  exists w',
    number_tileset Sample.E "dir/tileset.png" None Sample.w0 = (Ok true, w')
    /\ stdout w' !! 1%nat = Some "Tiles per row: 4, Tiles per column: 2".
Proof.
  destruct (tile_size_fixed_in_number_tileset Sample.E Sample.w0
              "dir/tileset.png" None Sample.tileset 64 32 eq_refl eq_refl)
    as (Hline & Hrun & _).
  destruct (Hrun eq_refl eq_refl eq_refl) as (w' & Hw' & _).
  exists w'. split; [exact Hw'|].
  rewrite Hw' in Hline. exact Hline.
Defined.

(** * Further properties of the code *)

(** ** Outcomes of number_tileset *)

Section LabelerOutcomes.

Variable E : env.

(** A path that names a file the library cannot identify: the exception
    of [Image.open] escapes, before anything is printed. *)
Lemma number_tileset_other (tileset_path : string)
    (output_path : option string) (w : world) :
  files w !! tileset_path = Some OtherFile ->
  number_tileset E tileset_path output_path w
  = (Raise (UnidentifiedImageError tileset_path), w).
Proof.
  intros Hother. unfold number_tileset, bind at 1, os_path_exists.
  rewrite bool_decide_eq_true_2 by (rewrite Hother; eauto).
  cbn [negb]. unfold bind at 1, Image_open. rewrite Hother. reflexivity.
Qed.

Lemma emptied_other (path q : string) (fs : gmap string file) :
  q <> path -> emptied path fs !! q = fs !! q.
Proof.
  intros Hq. unfold emptied. destruct (fs !! path); [|reflexivity].
  apply lookup_insert_ne. congruence.
Qed.

(** The kinds of path, and what the run is on each. *)
Lemma number_tileset_cases (tileset_path : string)
    (output_path : option string) (w : world) :
  (files w !! tileset_path = None
   /\ number_tileset E tileset_path output_path w
      = (Ok false,
         World (files w)
               (stdout w ++ ["ERROR: Tileset file not found: "
                             +:+ tileset_path])))
  \/ (files w !! tileset_path = Some OtherFile
      /\ number_tileset E tileset_path output_path w
         = (Raise (UnidentifiedImageError tileset_path), w))
  \/ (exists im e,
         files w !! tileset_path = Some (ImageFile im)
         /\ draw_error E im = Some e
         /\ number_tileset E tileset_path output_path w
            = (Raise e, World (files w) (stdout w ++ progress im)))
  \/ (exists im,
         files w !! tileset_path = Some (ImageFile im)
         /\ draw_error E im = None
         /\ number_tileset E tileset_path output_path w
            = match save_result E (saved_path tileset_path output_path) with
              | Saved =>
                  (Ok true,
                   World (<[saved_path tileset_path output_path
                            := ImageFile (annotated E im)]> (files w))
                         (stdout w ++ progress im
                          ++ ["SUCCESS: Numbered tileset saved as: "
                              +:+ saved_path tileset_path output_path]))
              | Refused e =>
                  (Raise e, World (files w) (stdout w ++ progress im))
              | Broken e =>
                  (Raise e,
                   World (emptied (saved_path tileset_path output_path)
                                  (files w))
                         (stdout w ++ progress im))
              end).
Proof.
  destruct (files w !! tileset_path) as [[im|]|] eqn:Hfile.
  - pose proof (number_tileset_image E tileset_path output_path w im Hfile)
      as Hrun.
    destruct (draw_error E im) as [e|] eqn:Hdraw.
    + do 2 right. left. exists im, e. auto.
    + do 3 right. exists im. auto.
  - right. left. split; [reflexivity|].
    apply number_tileset_other, Hfile.
  - left. split; [reflexivity|]. apply number_tileset_missing, Hfile.
Qed.

End LabelerOutcomes.

(** X1. [number_tileset] returns [True] exactly when the path names an
    image, the drawing raises nothing (the image has no whole tile, or
    its mode takes the colours of the rectangle and of the text) and the
    save succeeds; then an image is at the output path.  It returns
    [False] exactly when the path names nothing.  A run that ends before
    the save, on a missing path, on a file that is no image or on a colour
    turned down, leaves the files as they were. *)
Theorem number_tileset_outcomes (E : env) (w : world)
    (tileset_path : string) (output_path : option string) :
  let run := number_tileset E tileset_path output_path w in
  (fst run = Ok true
   <-> exists im,
         files w !! tileset_path = Some (ImageFile im)
         /\ draw_error E im = None
         /\ can_save E (saved_path tileset_path output_path) = true)
  /\ (fst run = Ok true
      -> exists im',
           files (snd run) !! saved_path tileset_path output_path
           = Some (ImageFile im'))
  /\ (fst run = Ok false <-> files w !! tileset_path = None)
  /\ ((forall im, files w !! tileset_path = Some (ImageFile im)
                  -> draw_error E im <> None)
      -> files (snd run) = files w).
Proof.
  intros run. subst run. unfold can_save.
  destruct (number_tileset_cases E tileset_path output_path w)
    as [[Hf ->]|[[Hf ->]|[(im & e & Hf & Hd & ->)|(im & Hf & Hd & ->)]]];
    cbn [fst snd files].
  - repeat split; try congruence; try discriminate.
    intros (im & Him & _). congruence.
  - repeat split; try congruence; try discriminate.
    intros (im & Him & _). congruence.
  - repeat split; try congruence; try discriminate.
    intros (im' & Him & Hd' & _). congruence.
  - destruct (save_result E _) eqn:Hs; cbn [fst snd files].
    + repeat split; try congruence; try discriminate.
      * intros _. exists im. auto.
      * intros _. rewrite lookup_insert_eq. eauto.
      * intros Hno. exfalso. exact (Hno im Hf Hd).
    + repeat split; try congruence; try discriminate.
      * intros (im' & Him & _ & Hsave). discriminate.
    + repeat split; try congruence; try discriminate.
      * intros (im' & Him & _ & Hsave). discriminate.
      * intros Hno. exfalso. exact (Hno im Hf Hd).
Qed.

(** X2. Whatever the outcome, [number_tileset] leaves every path other
    than the one it saves under as it was. *)
Theorem number_tileset_writes_only_output (E : env) (w : world)
    (tileset_path : string) (output_path : option string) (q : string) :
  q <> saved_path tileset_path output_path ->
  files (snd (number_tileset E tileset_path output_path w)) !! q
  = files w !! q.
Proof.
  intros Hq.
  destruct (number_tileset_cases E tileset_path output_path w)
    as [[Hf ->]|[[Hf ->]|[(im & e & Hf & Hd & ->)|(im & Hf & Hd & ->)]]];
    cbn [snd files]; try reflexivity.
  destruct (save_result E _); cbn [snd files]; try reflexivity.
  - apply lookup_insert_ne. congruence.
  - apply emptied_other, Hq.
Qed.

Lemma number_tileset_writes_only_output_witness :
  files (snd (number_tileset Sample.E "dir/tileset.png" None Sample.w0))
    !! "dir/sliver.png"
  = Some (ImageFile Sample.sliver).
Proof.
  rewrite (number_tileset_writes_only_output Sample.E Sample.w0
             "dir/tileset.png" None "dir/sliver.png");
    [reflexivity | discriminate].
Defined.

(** ** Geometry of the labels *)

Lemma range_In (n i : Z) : In i (range n) <-> 0 <= i < n.
Proof.
  unfold range. rewrite in_map_iff. split.
  - intros (k & <- & Hk). apply in_seq in Hk. lia.
  - intros Hi. exists (Z.to_nat i). split; [lia|]. apply in_seq. lia.
Qed.

Lemma cells_In (rows cols row col : Z) :
  In (row, col) (cells rows cols) <-> 0 <= row < rows /\ 0 <= col < cols.
Proof.
  unfold cells. rewrite in_flat_map. split.
  - intros (r & Hr & Hin). apply in_map_iff in Hin as (c & Heq & Hc).
    injection Heq as <- <-. apply range_In in Hr, Hc. auto.
  - intros [Hr Hc]. exists row. split; [apply range_In, Hr|].
    apply in_map_iff. exists col. split; [reflexivity | apply range_In, Hc].
Qed.

(** X4. On an image whose mode takes the two colours and with an output
    that can be saved, every label is drawn for a whole tile of the image:
    the tile whose corner lies two units up and left of the text anchor
    starts at a multiple of 16 and ends within [16 * (W div 16)] by
    [16 * (H div 16)], hence within the image; the strip left over when a
    dimension is no multiple of 16 gets no label. *)
Theorem number_tileset_labels_inside (E : env) (w : world)
    (tileset_path : string) (output_path : option string) (im : image)
    (W H : Z) :
  files w !! tileset_path = Some (ImageFile im) ->
  img_size im = (W, H) ->
  ink_error E (img_mode im) [0; 0; 0; 180] = None ->
  ink_error E (img_mode im) [255; 255; 0] = None ->
  can_save E (saved_path tileset_path output_path) = true ->
  exists w' calls,
    number_tileset E tileset_path output_path w = (Ok true, w')
    /\ files w' !! saved_path tileset_path output_path
       = Some (ImageFile (Image (img_size im) (img_mode im) (img_data im)
                                (img_drawn im ++ calls)))
    /\ forall x y t,
         In ((x, y), t) (drawn_labels calls) ->
         (x - 2) mod 16 = 0 /\ (y - 2) mod 16 = 0
         /\ 0 <= x - 2 /\ x - 2 + 16 <= 16 * (W / 16) <= W
         /\ 0 <= y - 2 /\ y - 2 + 16 <= 16 * (H / 16) <= H.
Proof.
  intros Hfile Hsize Hrect Htext Hsave. do 2 eexists.
  run_number_tileset Hfile Hrect Htext Hsave.
  split; [reflexivity|]. cbn [files]. rewrite lookup_insert_eq.
  split; [reflexivity|].
  intros x y t Hin. unfold labels_of in Hin. rewrite Hsize in Hin.
  cbn [fst snd] in Hin. rewrite drawn_labels_grid in Hin.
  apply in_map_iff in Hin as ([row col] & Heq & Hcell).
  cbn [fst snd] in Heq. injection Heq as <- <- _.
  apply cells_In in Hcell as [Hrow Hcol].
  pose proof (Z.mul_div_le W 16 ltac:(lia)).
  pose proof (Z.mul_div_le H 16 ltac:(lia)).
  replace (col * 16 + 2 - 2) with (col * 16) by lia.
  replace (row * 16 + 2 - 2) with (row * 16) by lia.
  rewrite !Z.mod_mul by lia. lia.
Qed.

Lemma number_tileset_labels_inside_witness :
  exists w' calls,
    number_tileset Sample.E "dir/tileset.png" None Sample.w0 = (Ok true, w')
    /\ files w' !! "dir/tileset-numbered.png"
       = Some (ImageFile (Image (64, 32) "RGBA" [7; 7; 7] calls))
    /\ forall x y t,
         In ((x, y), t) (drawn_labels calls) -> x + 14 <= 64 /\ y + 14 <= 32.
Proof.
  destruct (number_tileset_labels_inside Sample.E Sample.w0
              "dir/tileset.png" None Sample.tileset 64 32
              eq_refl eq_refl eq_refl eq_refl eq_refl)
    as (w' & calls & Hrun & Hfiles & Hin).
  exists w', calls. split; [exact Hrun|]. split; [exact Hfiles|].
  intros x y t Hl. destruct (Hin x y t Hl) as (_ & _ & _ & Hx & _ & Hy).
  lia.
Defined.

(** X5. From a label back to its tile: in an image of at least one tile
    whose mode takes the two colours, saved where it can be, the label
    drawn [k]-th (from zero) is the numeral of [k + 1] and sits in column
    [k mod cols] of row [k div cols]. *)
Theorem number_tileset_label_position (E : env) (w : world)
    (tileset_path : string) (output_path : option string) (im : image)
    (W H k : Z) :
  files w !! tileset_path = Some (ImageFile im) ->
  img_size im = (W, H) ->
  ink_error E (img_mode im) [0; 0; 0; 180] = None ->
  ink_error E (img_mode im) [255; 255; 0] = None ->
  can_save E (saved_path tileset_path output_path) = true ->
  0 <= W -> 0 <= H ->
  0 <= k < (H / 16) * (W / 16) ->
  exists w' calls,
    number_tileset E tileset_path output_path w = (Ok true, w')
    /\ files w' !! saved_path tileset_path output_path
       = Some (ImageFile (Image (img_size im) (img_mode im) (img_data im)
                                (img_drawn im ++ calls)))
    /\ drawn_labels calls !! Z.to_nat k
       = Some ((k mod (W / 16) * 16 + 2, k / (W / 16) * 16 + 2),
               str (k + 1)).
Proof.
  intros Hfile Hsize Hrect Htext Hsave HW HH Hk. do 2 eexists.
  run_number_tileset Hfile Hrect Htext Hsave.
  split; [reflexivity|]. cbn [files]. rewrite lookup_insert_eq.
  split; [reflexivity|].
  unfold labels_of. rewrite Hsize. cbn [fst snd].
  pose proof (Z.div_pos W 16 HW ltac:(lia)) as Hcols.
  pose proof (Z.div_pos H 16 HH ltac:(lia)) as Hrows.
  assert (Hpos : 0 < W / 16) by nia.
  pose proof (Z.div_mod k (W / 16) ltac:(lia)) as Hdm.
  pose proof (Z.mod_pos_bound k (W / 16) Hpos) as Hmod.
  assert (Hq : 0 <= k / (W / 16) < H / 16).
  { split; [apply Z.div_pos; lia|].
    apply Z.div_lt_upper_bound; [lia | nia]. }
  pose proof (drawn_labels_lookup E (chosen_font E) (W / 16) (H / 16)
                (k / (W / 16)) (k mod (W / 16)) Hq Hmod) as Hl.
  replace (k / (W / 16) * (W / 16) + k mod (W / 16)) with k in Hl by lia.
  exact Hl.
Qed.

Lemma number_tileset_label_position_witness :
  exists w' calls,
    number_tileset Sample.E "dir/tileset.png" None Sample.w0 = (Ok true, w')
    /\ files w' !! "dir/tileset-numbered.png"
       = Some (ImageFile (Image (64, 32) "RGBA" [7; 7; 7] calls))
    /\ drawn_labels calls !! 6%nat = Some ((34, 18), "7").
Proof.
  assert (Hk : 0 <= 6 < 32 / 16 * (64 / 16))
    by (change (32 / 16 * (64 / 16)) with 8; lia).
  exact (number_tileset_label_position Sample.E Sample.w0 "dir/tileset.png"
           None Sample.tileset 64 32 6 eq_refl eq_refl eq_refl eq_refl eq_refl
           ltac:(lia) ltac:(lia) Hk).
Defined.

(** ** Labels tell tiles apart *)

Lemma to_int_not_nil (n : Z) :
  Z.to_int n <> Decimal.Pos Decimal.Nil
  /\ Z.to_int n <> Decimal.Neg Decimal.Nil.
Proof.
  split; intros Hn; pose proof (f_equal Z.of_int Hn) as Hz;
    rewrite DecimalZ.of_to in Hz; cbn in Hz; subst n; discriminate Hn.
Qed.

(** [str] loses nothing: the numeral parses back to the number. *)
Lemma str_parse (n : Z) :
  NilZero.int_of_string (str n) = Some (Z.to_int n).
Proof.
  unfold str. destruct (to_int_not_nil n). now apply NilZero.isi.
Qed.

Lemma str_inj (n m : Z) : str n = str m -> n = m.
Proof.
  intros Heq. apply (f_equal NilZero.int_of_string) in Heq.
  rewrite !str_parse in Heq. injection Heq as Heq.
  apply (f_equal Z.of_int) in Heq. now rewrite !DecimalZ.of_to in Heq.
Qed.

Lemma range_NoDup (n : Z) : List.NoDup (range n).
Proof.
  unfold range. apply Finite.Injective_map_NoDup.
  - intros i j. apply Nat2Z.inj.
  - apply List.seq_NoDup.
Qed.

Lemma cells_indices_NoDup (rows cols : Z) :
  List.NoDup
    (map (fun c => tile_index cols (fst c) (snd c)) (cells rows cols)).
Proof.
  destruct (Z_le_gt_dec rows 0) as [Hr|Hr].
  { unfold cells. rewrite (range_nonpos rows Hr). constructor. }
  destruct (Z_le_gt_dec cols 0) as [Hc|Hc].
  { unfold cells. rewrite (range_nonpos cols Hc).
    induction (range rows); simpl; [constructor | assumption]. }
  rewrite cells_indices by lia.
  apply Finite.Injective_map_NoDup; [|apply range_NoDup].
  intros i j. lia.
Qed.

(** X6. On an image whose mode takes the two colours and with an output
    that can be saved, no two tiles of one run get the same label text,
    so a number read off the saved image names one tile; every label text
    parses back to a number of at least 1. *)
Theorem number_tileset_labels_distinct (E : env) (w : world)
    (tileset_path : string) (output_path : option string) (im : image) :
  files w !! tileset_path = Some (ImageFile im) ->
  ink_error E (img_mode im) [0; 0; 0; 180] = None ->
  ink_error E (img_mode im) [255; 255; 0] = None ->
  can_save E (saved_path tileset_path output_path) = true ->
  exists w' calls,
    number_tileset E tileset_path output_path w = (Ok true, w')
    /\ files w' !! saved_path tileset_path output_path
       = Some (ImageFile (Image (img_size im) (img_mode im) (img_data im)
                                (img_drawn im ++ calls)))
    /\ List.NoDup (map snd (drawn_labels calls))
    /\ forall t, In t (map snd (drawn_labels calls)) ->
         exists n, 1 <= n /\ t = str n
                   /\ NilZero.int_of_string t = Some (Z.to_int n).
Proof.
  intros Hfile Hrect Htext Hsave. do 2 eexists.
  run_number_tileset Hfile Hrect Htext Hsave.
  split; [reflexivity|]. cbn [files]. rewrite lookup_insert_eq.
  split; [reflexivity|].
  unfold labels_of. rewrite drawn_labels_texts. split.
  - apply Finite.Injective_map_NoDup; [|apply cells_indices_NoDup].
    intros i j. apply str_inj.
  - intros t Hin. apply in_map_iff in Hin as (n & <- & Hn).
    apply in_map_iff in Hn as ([row col] & <- & Hcell).
    apply cells_In in Hcell as [Hrow Hcol]. cbn [fst snd].
    eexists. split; [|split; [reflexivity | apply str_parse]].
    unfold tile_index. nia.
Qed.

Lemma number_tileset_labels_distinct_witness :
  exists w' calls,
    number_tileset Sample.E "dir/tileset.png" None Sample.w0 = (Ok true, w')
    /\ List.NoDup (map snd (drawn_labels calls)).
Proof.
  destruct (number_tileset_labels_distinct Sample.E Sample.w0
              "dir/tileset.png" None Sample.tileset eq_refl eq_refl eq_refl eq_refl)
    as (w' & calls & Hrun & _ & Hnodup & _).
  exists w', calls. split; [exact Hrun | exact Hnodup].
Defined.

(** ** One font, one colour *)

Lemma grid_calls_In (E : env) (f : font) (tile_size cols rows : Z)
    (c : draw_call) :
  In c (grid_calls E f tile_size cols rows) ->
  (exists xy, c = Rectangle xy (0, 0, 0, 180))
  \/ (exists xy t, c = Text xy t (255, 255, 0) f).
Proof.
  rewrite grid_calls_cells. intros Hin.
  apply in_flat_map in Hin as ([row col] & _ & Hin).
  cbn [fst snd] in Hin. unfold tile_calls in Hin.
  destruct (textbbox E f _ _) as [[[b0 b1] b2] b3].
  destruct Hin as [<-|[<-|[]]]; eauto.
Qed.

(** X7. The fonts are tried in order and a font that is not found is no
    error: on an image whose mode takes the two colours, and with an
    output that can be saved, the run returns True whichever fonts are
    installed, and all its texts are drawn in yellow with one font,
    DejaVuSans-Bold at size 12 when it is found, else arial at size 12
    when that is found, else the default font; all its rectangles are
    filled with (0, 0, 0, 180). *)
Theorem number_tileset_one_font (E : env) (w : world)
    (tileset_path : string) (output_path : option string) (im : image) :
  files w !! tileset_path = Some (ImageFile im) ->
  ink_error E (img_mode im) [0; 0; 0; 180] = None ->
  ink_error E (img_mode im) [255; 255; 0] = None ->
  can_save E (saved_path tileset_path output_path) = true ->
  exists w' calls,
    number_tileset E tileset_path output_path w = (Ok true, w')
    /\ files w' !! saved_path tileset_path output_path
       = Some (ImageFile (Image (img_size im) (img_mode im) (img_data im)
                                (img_drawn im ++ calls)))
    /\ forall c, In c calls ->
         (exists xy, c = Rectangle xy (0, 0, 0, 180))
         \/ (exists xy t,
                c = Text xy t (255, 255, 0)
                      (if font_found E "DejaVuSans-Bold.ttf"
                       then TrueType "DejaVuSans-Bold.ttf" 12
                       else if font_found E "arial.ttf"
                            then TrueType "arial.ttf" 12
                            else DefaultFont)).
Proof.
  intros Hfile Hrect Htext Hsave. do 2 eexists.
  run_number_tileset Hfile Hrect Htext Hsave.
  split; [reflexivity|]. cbn [files]. rewrite lookup_insert_eq.
  split; [reflexivity|].
  intros c Hin. apply grid_calls_In in Hin. exact Hin.
Qed.

Lemma number_tileset_one_font_witness :
  exists w' calls,
    number_tileset Sample.E "dir/tileset.png" None Sample.w0 = (Ok true, w')
    /\ forall c, In c calls ->
         (exists xy, c = Rectangle xy (0, 0, 0, 180))
         \/ (exists xy t,
                c = Text xy t (255, 255, 0) (TrueType "arial.ttf" 12)).
Proof.
  destruct (number_tileset_one_font Sample.E Sample.w0 "dir/tileset.png"
              None Sample.tileset eq_refl eq_refl eq_refl eq_refl)
    as (w' & calls & Hrun & _ & Hcalls).
  exists w', calls. split; [exact Hrun | exact Hcalls].
Defined.

(** ** Edges of print_tile_reference *)

(** X8. [print_tile_reference] raises exactly when the tile size is 0:
    then [ZeroDivisionError] escapes from the first division and nothing
    is printed; for every other tile size, negative ones included, and for
    an omitted one, it prints the three heading lines, the rows and the
    total line. *)
Theorem print_tile_reference_raises_iff_zero (width height : Z)
    (tile_size : option Z) :
  (tile_size = Some 0
   -> print_tile_reference width height tile_size = Raise ZeroDivisionError)
  /\ (tile_size <> Some 0
      -> exists grid total,
           print_tile_reference width height tile_size
           = Ok (header ++ grid ++ [total])).
Proof.
  split.
  - intros ->. reflexivity.
  - intros Hts. destruct tile_size as [ts|].
    + assert (Hne : ts <> 0) by congruence.
      do 2 eexists. apply print_tile_reference_eq, Hne.
    + do 2 eexists.
      change (print_tile_reference width height None)
        with (print_tile_reference width height (Some 16)).
      apply print_tile_reference_eq. discriminate.
Qed.

Lemma length_number_tokens_row_line (cols row : Z) :
  length (number_tokens (row_line cols row)) = Z.to_nat cols.
Proof.
  rewrite number_tokens_row_line. unfold row_numbers.
  rewrite !length_map. apply range_length.
Qed.

Lemma length_printed_numbers (cols rows : Z) :
  length (flat_map number_tokens (map (row_line cols) (range rows)))
  = (Z.to_nat rows * Z.to_nat cols)%nat.
Proof.
  rewrite <- (range_length rows).
  induction (range rows) as [|row l IH]; simpl; [reflexivity|].
  rewrite length_app, length_number_tokens_row_line, IH. lia.
Qed.

(** X9. The total that [print_tile_reference] prints is the count of the
    number tokens it printed in the rows, for every width and height,
    negative ones included, and every tile size other than 0. *)
Theorem print_tile_reference_total_counts_tokens (width height tile_size : Z) :
  tile_size <> 0 ->
  exists grid,
    print_tile_reference width height (Some tile_size)
    = Ok (header ++ grid
          ++ [newline +:+ "TOTAL TILES: "
              +:+ str (Z.of_nat (length (flat_map number_tokens grid)))]).
Proof.
  intros Hts.
  exists (map (row_line (width / tile_size)) (range (height / tile_size))).
  rewrite print_tile_reference_eq by exact Hts.
  rewrite length_printed_numbers, Nat2Z.inj_mul. reflexivity.
Qed.

Lemma print_tile_reference_total_counts_tokens_witness :
  exists grid,
    print_tile_reference (-20) 40 (Some 16)
    = Ok (header ++ grid
          ++ [newline +:+ "TOTAL TILES: "
              +:+ str (Z.of_nat (length (flat_map number_tokens grid)))]).
Proof.
  apply (print_tile_reference_total_counts_tokens (-20) 40 16). discriminate.
Defined.

(** X10. What does not fill a whole tile is left out of the printed grid:
    the output for [width] and [height] is the output for the largest
    multiples of the tile size below them. *)
Theorem print_tile_reference_truncates (width height tile_size : Z) :
  tile_size <> 0 ->
  print_tile_reference width height (Some tile_size)
  = print_tile_reference (tile_size * (width / tile_size))
                         (tile_size * (height / tile_size)) (Some tile_size).
Proof.
  intros Hts. rewrite !print_tile_reference_eq by exact Hts.
  rewrite !(Z.mul_comm tile_size), !Z.div_mul by exact Hts. reflexivity.
Qed.

Lemma print_tile_reference_truncates_witness :
  print_tile_reference 17 16 (Some 16) = print_tile_reference 16 16 (Some 16).
Proof.
  apply (print_tile_reference_truncates 17 16 16). discriminate.
Defined.

(** X11. A grid without columns still prints its row labels: when the
    width is below the tile size, every row line is the bare label
    [Row  n: ] with no number after it, and the total is 0. *)
Theorem print_tile_reference_no_columns (width height tile_size : Z) :
  0 < tile_size -> width < tile_size ->
  print_tile_reference width height (Some tile_size)
  = Ok (header
        ++ map (fun row => "Row " +:+ format_d 2 (row + 1) +:+ ": ")
               (range (height / tile_size))
        ++ [newline +:+ "TOTAL TILES: 0"]).
Proof.
  intros Hts Hw. rewrite print_tile_reference_eq by lia.
  assert (Hcols : width / tile_size <= 0).
  { enough (width / tile_size < 1) by lia.
    apply Z.div_lt_upper_bound; lia. }
  replace (Z.to_nat (width / tile_size)) with 0%nat by lia.
  rewrite Z.mul_0_r. do 2 f_equal. f_equal.
  apply map_ext; intros row. unfold row_line, row_numbers.
  rewrite (range_nonpos _ Hcols). simpl. apply append_nil_r.
Qed.

Lemma print_tile_reference_no_columns_witness :
  print_tile_reference 15 32 (Some 16)
  = Ok (header ++ ["Row  1: "; "Row  2: "] ++ [newline +:+ "TOTAL TILES: 0"]).
Proof.
  rewrite (print_tile_reference_no_columns 15 32 16) by lia. reflexivity.
Defined.

(** X12. With no output path given, on an image whose mode takes the two
    colours and with an output that can be saved, the path
    [number_tileset] saves under and reports lies in the directory of the
    source path (the two paths agree up to and including their last [/])
    and has the extension [.png]: [os.path.splitext] splits it into the
    source's base name followed by [-numbered], and [.png]. *)
Theorem number_tileset_default_output_place (E : env) (w : world)
    (tileset_path : string) (im : image) :
  files w !! tileset_path = Some (ImageFile im) ->
  ink_error E (img_mode im) [0; 0; 0; 180] = None ->
  ink_error E (img_mode im) [255; 255; 0] = None ->
  can_save E (fst (splitext tileset_path) +:+ "-numbered.png") = true ->
  exists w' out im',
    number_tileset E tileset_path None w = (Ok true, w')
    /\ files w' = <[out := ImageFile im']> (files w)
    /\ last (stdout w')
       = Some ("SUCCESS: Numbered tileset saved as: " +:+ out)
    /\ rfind out "/" = rfind tileset_path "/"
    /\ take_str (Z.to_nat (rfind tileset_path "/" + 1)) out
       = take_str (Z.to_nat (rfind tileset_path "/" + 1)) tileset_path
    /\ splitext out = (fst (splitext tileset_path) +:+ "-numbered", ".png").
Proof.
  intros Hfile Hrect Htext Hsave.
  change (fst (splitext tileset_path) +:+ "-numbered.png")
    with (saved_path tileset_path None) in Hsave.
  do 3 eexists. run_number_tileset Hfile Hrect Htext Hsave.
  split; [reflexivity|]. cbn [files stdout].
  split; [reflexivity|].
  split; [rewrite !app_assoc; apply last_snoc|].
  unfold saved_path.
  set (base := fst (splitext tileset_path)).
  destruct (splitext_base_sep tileset_path) as [Hsep Hdir].
  fold base in Hsep, Hdir.
  pose proof (rfind_upper base "/") as Hup.
  pose proof (rfind_lower base "/") as Hlow.
  assert (Hslash : rfind (base +:+ "-numbered.png") "/" = rfind base "/")
    by (apply rfind_append_absent; reflexivity).
  assert (Hdot : rfind (base +:+ "-numbered.png") "."
                 = Z.of_nat (String.length base) + 9)
    by (rewrite rfind_append_present;
        [reflexivity | vm_compute; discriminate]).
  split; [congruence|]. split.
  - rewrite <- Hdir, <- Hsep. apply take_str_append. lia.
  - unfold splitext. rewrite Hslash, Hdot.
    destruct (Z.ltb_spec (rfind base "/")
                         (Z.of_nat (String.length base) + 9)) as [_|Hge];
      [|lia].
    rewrite (splitext_scan_found _ _ (Z.of_nat (String.length base)));
      [| lia | lia |].
    + cbn [andb].
      replace (Z.to_nat (Z.of_nat (String.length base) + 9))
        with (String.length base + 9)%nat by lia.
      rewrite take_str_past, drop_str_past. reflexivity.
    + rewrite Nat2Z.id.
      rewrite <- (Nat.add_0_r (String.length base)), drop_str_past.
      discriminate.
Qed.

Lemma number_tileset_default_output_place_witness :
  exists w' out im',
    number_tileset Sample.E "dir/tileset.png" None Sample.w0 = (Ok true, w')
    /\ files w' = <[out := ImageFile im']> (files Sample.w0)
    /\ splitext out = ("dir/tileset-numbered", ".png").
Proof.
  destruct (number_tileset_default_output_place Sample.E Sample.w0
              "dir/tileset.png" Sample.tileset eq_refl eq_refl eq_refl
              eq_refl)
    as (w' & out & im' & Hrun & Hfiles & _ & _ & _ & Hsplit).
  exists w', out, im'. split; [exact Hrun|]. split; [exact Hfiles|].
  exact Hsplit.
Defined.

(** ** The program entry *)

Section MainFacts.

Variable E : env.
Variable is_FileNotFoundError : exn -> bool.
Variable exn_text : exn -> string.

Local Abbreviation main := (main E is_FileNotFoundError exn_text).
Local Abbreviation main_handler :=
  (main_handler is_FileNotFoundError exn_text).

Lemma print_all_eq (lines : list string) (w : world) :
  print_all lines w = (Ok tt, World (files w) (stdout w ++ lines)).
Proof.
  revert w; induction lines as [|l lines IH]; intros w.
  - simpl. unfold ret. destruct w; simpl. now rewrite app_nil_r.
  - simpl. unfold bind, print. rewrite IH. cbn [files stdout].
    now rewrite <- app_assoc.
Qed.

(** Either handler prints and returns. *)
Lemma main_handler_eq (tileset_path : string) (e : exn) (w : world) :
  main_handler tileset_path e w
  = (Ok tt,
     World (files w)
           (stdout w
            ++ if is_FileNotFoundError e
               then [ "ERROR: Could not find tileset file: " +:+ tileset_path;
                      "Make sure you're running this from the love-game directory" ]
               else [ "ERROR: " +:+ exn_text e ])).
Proof.
  unfold main_handler. destruct (is_FileNotFoundError e).
  - unfold bind, print. cbn [files stdout]. now rewrite <- app_assoc.
  - reflexivity.
Qed.

Lemma call_print_tile_reference_eq (width height : Z) (w : world) :
  call_print_tile_reference width height None w
  = (Ok tt,
     World (files w)
           (stdout w ++ header
            ++ map (row_line (width / 16)) (range (height / 16))
            ++ [newline +:+ "TOTAL TILES: "
                +:+ str (Z.of_nat (Z.to_nat (height / 16))
                         * Z.of_nat (Z.to_nat (width / 16)))])).
Proof.
  unfold call_print_tile_reference.
  change (print_tile_reference width height None)
    with (print_tile_reference width height (Some 16)).
  rewrite print_tile_reference_eq by discriminate. reflexivity.
Qed.

(** The output path of the program. *)
Lemma main_saved_path :
  saved_path main_tileset_path None
  = "assets/img/tileset/tileset-v1-numbered.png".
Proof. vm_compute. reflexivity. Qed.

(** The source cannot be opened: the handler runs at once. *)
Lemma main_unopened (w : world) (e : exn) :
  Image_open main_tileset_path w = (Raise e, w) ->
  main w = main_handler main_tileset_path e w.
Proof.
  intros Hopen. unfold main, try_catch, bind at 1. rewrite Hopen.
  reflexivity.
Qed.

(** The source is an image: the grid is printed, then the labeller
    runs; an exception of a drawing call or of the save reaches the
    handler. *)
Lemma main_opened (w : world) (im : image) :
  files w !! main_tileset_path = Some (ImageFile im) ->
  let w1 :=
    World (files w)
          (stdout w
           ++ ["Found tileset: " +:+ str (fst (img_size im)) +:+ "x"
               +:+ str (snd (img_size im)) +:+ " pixels"]
           ++ header
           ++ map (row_line (fst (img_size im) / 16))
                  (range (snd (img_size im) / 16))
           ++ [newline +:+ "TOTAL TILES: "
               +:+ str (Z.of_nat (Z.to_nat (snd (img_size im) / 16))
                        * Z.of_nat (Z.to_nat (fst (img_size im) / 16)))]) in
  main w
  = match draw_error E im with
    | Some e =>
        main_handler main_tileset_path e
          (World (files w) (stdout w1 ++ progress im))
    | None =>
        match save_result E (saved_path main_tileset_path None) with
        | Saved =>
            (Ok tt,
             World (<[saved_path main_tileset_path None
                      := ImageFile (annotated E im)]> (files w))
                   (stdout w1 ++ progress im
                    ++ ["SUCCESS: Numbered tileset saved as: "
                        +:+ saved_path main_tileset_path None]
                    ++ legend))
        | Refused e =>
            main_handler main_tileset_path e
              (World (files w) (stdout w1 ++ progress im))
        | Broken e =>
            main_handler main_tileset_path e
              (World (emptied (saved_path main_tileset_path None) (files w))
                     (stdout w1 ++ progress im))
        end
    end.
Proof.
  intros Hfile w1.
  assert (Hfile1 : files w1 !! main_tileset_path = Some (ImageFile im))
    by exact Hfile.
  pose proof (number_tileset_image E main_tileset_path None w1 im Hfile1)
    as Hrun.
  unfold main, try_catch, bind at 1, Image_open. rewrite Hfile.
  destruct (img_size im) as [width height] eqn:Hsize.
  unfold bind at 1, print. unfold bind at 1.
  rewrite call_print_tile_reference_eq. unfold bind at 1.
  cbn [files stdout fst snd] in *.
  replace (World (files w) _) with w1
    by (subst w1; rewrite <- !app_assoc; reflexivity).
  rewrite Hrun.
  destruct (draw_error E im); [reflexivity|].
  destruct (save_result E (saved_path main_tileset_path None));
    [|reflexivity|reflexivity].
  rewrite print_all_eq. cbn [files stdout].
  rewrite <- !app_assoc. reflexivity.
Qed.

End MainFacts.

(** X13. The program never ends in an exception: whatever the files,
    the fonts, the colours the image takes and the paths that can be
    written, and whatever exception escapes from opening, drawing or
    saving, a handler prints a message and the block ends normally.  It
    leaves every path other than
    [assets/img/tileset/tileset-v1-numbered.png] as it was. *)
Theorem main_never_raises (E : env) (is_FileNotFoundError : exn -> bool)
    (exn_text : exn -> string) (w : world) :
  exists w',
    main E is_FileNotFoundError exn_text w = (Ok tt, w')
    /\ forall q,
         q <> "assets/img/tileset/tileset-v1-numbered.png" ->
         files w' !! q = files w !! q.
Proof.
  destruct (files w !! main_tileset_path) as [[im|]|] eqn:Hfile.
  - pose proof (main_opened E is_FileNotFoundError exn_text w im Hfile)
      as Hmain. cbv zeta in Hmain. rewrite main_saved_path in Hmain.
    rewrite Hmain.
    destruct (draw_error E im) as [e|].
    { rewrite main_handler_eq. eexists. split; [reflexivity|].
      cbn [files]. auto. }
    destruct (save_result E "assets/img/tileset/tileset-v1-numbered.png")
      as [|e|e].
    + eexists. split; [reflexivity|]. cbn [files].
      intros q Hq. apply lookup_insert_ne. congruence.
    + rewrite main_handler_eq. eexists. split; [reflexivity|].
      cbn [files]. auto.
    + rewrite main_handler_eq. eexists. split; [reflexivity|].
      cbn [files]. intros q Hq. apply emptied_other, Hq.
  - eexists. rewrite (main_unopened E _ _ w (UnidentifiedImageError _))
      by (unfold Image_open; rewrite Hfile; reflexivity).
    rewrite main_handler_eq. split; [reflexivity|]. cbn [files]. auto.
  - eexists. rewrite (main_unopened E _ _ w (OSError _))
      by (unfold Image_open; rewrite Hfile; reflexivity).
    rewrite main_handler_eq. split; [reflexivity|]. cbn [files]. auto.
Qed.

(** X14. When the tileset is an image whose mode takes the two colours
    and the labelled copy can be saved, the program prints the line on
    the tileset found, the reference grid, the report of the labeller and
    the legend, in this order, and saves the labelled image; the numbers
    of the grid on the console, read row after row, are the texts drawn
    on the image, in drawing order. *)
Theorem main_grid_matches_image (E : env)
    (is_FileNotFoundError : exn -> bool) (exn_text : exn -> string)
    (w : world) (im : image) (W H : Z) :
  files w !! main_tileset_path = Some (ImageFile im) ->
  img_size im = (W, H) ->
  ink_error E (img_mode im) [0; 0; 0; 180] = None ->
  ink_error E (img_mode im) [255; 255; 0] = None ->
  can_save E "assets/img/tileset/tileset-v1-numbered.png" = true ->
  exists w' grid total calls,
    main E is_FileNotFoundError exn_text w = (Ok tt, w')
    /\ stdout w'
       = stdout w
         ++ ["Found tileset: " +:+ str W +:+ "x" +:+ str H +:+ " pixels"]
         ++ header ++ grid ++ [total]
         ++ [ "Processing tileset: " +:+ str W +:+ "x" +:+ str H
              +:+ " pixels";
              "Tiles per row: " +:+ str (W / 16)
              +:+ ", Tiles per column: " +:+ str (H / 16);
              "Total tiles: " +:+ str (W / 16 * (H / 16));
              "SUCCESS: Numbered tileset saved as: "
              +:+ "assets/img/tileset/tileset-v1-numbered.png" ]
         ++ legend
    /\ files w'
       = <["assets/img/tileset/tileset-v1-numbered.png"
           := ImageFile (Image (img_size im) (img_mode im) (img_data im)
                               (img_drawn im ++ calls))]> (files w)
    /\ flat_map number_tokens grid = map snd (drawn_labels calls).
Proof.
  intros Hfile Hsize Hrect Htext Hsave.
  pose proof (main_opened E is_FileNotFoundError exn_text w im Hfile)
    as Hmain. cbv zeta in Hmain.
  rewrite main_saved_path, (draw_error_inks _ _ Hrect Htext),
    (can_save_Saved _ _ Hsave) in Hmain.
  unfold progress in Hmain.
  rewrite Hsize in Hmain. cbn [fst snd] in Hmain.
  eexists.
  exists (map (row_line (W / 16)) (range (H / 16))).
  exists (newline +:+ "TOTAL TILES: "
          +:+ str (Z.of_nat (Z.to_nat (H / 16))
                   * Z.of_nat (Z.to_nat (W / 16)))).
  exists (labels_of E im).
  split; [exact Hmain|]. cbn [stdout files].
  split; [rewrite <- !app_assoc; reflexivity|].
  split; [reflexivity|].
  unfold labels_of. rewrite Hsize. cbn [fst snd].
  rewrite printed_numbers, drawn_labels_texts. reflexivity.
Qed.

Lemma main_grid_matches_image_witness :
  exists w' grid calls,
    main Sample.E SampleMain.is_FileNotFoundError SampleMain.exn_text
         SampleMain.w_tileset = (Ok tt, w')
    /\ files w' !! "assets/img/tileset/tileset-v1-numbered.png"
       = Some (ImageFile (Image (64, 32) "RGBA" [7; 7; 7] calls))
    /\ flat_map number_tokens grid = map snd (drawn_labels calls).
Proof.
  destruct (main_grid_matches_image Sample.E SampleMain.is_FileNotFoundError
              SampleMain.exn_text SampleMain.w_tileset Sample.tileset 64 32
              eq_refl eq_refl eq_refl eq_refl eq_refl)
    as (w' & grid & total & calls & Hrun & Hout & Hfiles & Hsame).
  exists w', grid, calls. split; [exact Hrun|].
  split; [|exact Hsame].
  rewrite Hfiles. apply lookup_insert_eq.
Defined.

(** X15. When the tileset path names no image, the program writes no
    file and prints only the message of the handler, with no line before
    it: the two lines on the missing tileset when the exception of
    [Image.open] is a [FileNotFoundError], else [ERROR: ] and the
    exception's text. *)
Theorem main_source_unreadable (E : env)
    (is_FileNotFoundError : exn -> bool) (exn_text : exn -> string)
    (w : world) :
  (forall im, files w !! main_tileset_path <> Some (ImageFile im)) ->
  let e :=
    match files w !! main_tileset_path with
    | None => OSError main_tileset_path
    | Some _ => UnidentifiedImageError main_tileset_path
    end in
  main E is_FileNotFoundError exn_text w
  = (Ok tt,
     World (files w)
           (stdout w
            ++ if is_FileNotFoundError e
               then [ "ERROR: Could not find tileset file: "
                      +:+ "assets/img/tileset/tileset-v1.png";
                      "Make sure you're running this from the love-game directory" ]
               else [ "ERROR: " +:+ exn_text e ])).
Proof.
  intros Hno e. subst e.
  destruct (files w !! main_tileset_path) as [[im|]|] eqn:Hfile.
  - exfalso. exact (Hno im eq_refl).
  - rewrite (main_unopened E _ _ w (UnidentifiedImageError _))
      by (unfold Image_open; rewrite Hfile; reflexivity).
    apply main_handler_eq.
  - rewrite (main_unopened E _ _ w (OSError _))
      by (unfold Image_open; rewrite Hfile; reflexivity).
    apply main_handler_eq.
Qed.

Lemma main_source_unreadable_witness :
  main Sample.E SampleMain.is_FileNotFoundError SampleMain.exn_text
       SampleMain.w_empty
  = (Ok tt,
     World ∅
           [ "ERROR: Could not find tileset file: assets/img/tileset/tileset-v1.png";
             "Make sure you're running this from the love-game directory" ]).
Proof.
  rewrite (main_source_unreadable Sample.E SampleMain.is_FileNotFoundError
             SampleMain.exn_text SampleMain.w_empty);
    [reflexivity | intros im; discriminate].
Defined.

(** X16. When the tileset is an image that takes the two colours but the
    labelled copy cannot be saved, the program has printed the tileset
    found, the reference grid and the three report lines of the labeller
    by then; the exception of the save reaches the handler, whose message
    is all that follows: no success line and no legend.  Every path other
    than [assets/img/tileset/tileset-v1-numbered.png] is as it was; that
    path too when the save is refused before the file is opened, while a
    save that breaks after opening it leaves a file that was there
    without its image. *)
Theorem main_save_fails (E : env) (is_FileNotFoundError : exn -> bool)
    (exn_text : exn -> string) (w : world) (im : image) (W H : Z)
    (e : exn) :
  files w !! main_tileset_path = Some (ImageFile im) ->
  img_size im = (W, H) ->
  ink_error E (img_mode im) [0; 0; 0; 180] = None ->
  ink_error E (img_mode im) [255; 255; 0] = None ->
  save_result E "assets/img/tileset/tileset-v1-numbered.png" = Refused e
  \/ save_result E "assets/img/tileset/tileset-v1-numbered.png" = Broken e ->
  exists grid total w',
    print_tile_reference W H None = Ok (header ++ grid ++ [total])
    /\ main E is_FileNotFoundError exn_text w = (Ok tt, w')
    /\ stdout w'
       = stdout w
         ++ ["Found tileset: " +:+ str W +:+ "x" +:+ str H +:+ " pixels"]
         ++ header ++ grid ++ [total]
         ++ [ "Processing tileset: " +:+ str W +:+ "x" +:+ str H
              +:+ " pixels";
              "Tiles per row: " +:+ str (W / 16)
              +:+ ", Tiles per column: " +:+ str (H / 16);
              "Total tiles: " +:+ str (W / 16 * (H / 16)) ]
         ++ (if is_FileNotFoundError e
             then [ "ERROR: Could not find tileset file: "
                    +:+ "assets/img/tileset/tileset-v1.png";
                    "Make sure you're running this from the love-game directory" ]
             else [ "ERROR: " +:+ exn_text e ])
    /\ (forall q,
           q <> "assets/img/tileset/tileset-v1-numbered.png" ->
           files w' !! q = files w !! q)
    /\ (save_result E "assets/img/tileset/tileset-v1-numbered.png"
        = Refused e
        -> files w' = files w)
    /\ (save_result E "assets/img/tileset/tileset-v1-numbered.png"
        = Broken e
        -> files w' !! "assets/img/tileset/tileset-v1-numbered.png"
           = match files w !! "assets/img/tileset/tileset-v1-numbered.png"
             with
             | Some _ => Some OtherFile
             | None => None
             end).
Proof.
  intros Hfile Hsize Hrect Htext Hsave.
  pose proof (main_opened E is_FileNotFoundError exn_text w im Hfile)
    as Hmain. cbv zeta in Hmain.
  rewrite main_saved_path, (draw_error_inks _ _ Hrect Htext) in Hmain.
  unfold progress in Hmain. rewrite Hsize in Hmain.
  cbn [fst snd files stdout] in Hmain.
  exists (map (row_line (W / 16)) (range (H / 16))).
  exists (newline +:+ "TOTAL TILES: "
          +:+ str (Z.of_nat (Z.to_nat (H / 16))
                   * Z.of_nat (Z.to_nat (W / 16)))).
  assert (Hgrid : print_tile_reference W H None
                  = Ok (header
                        ++ map (row_line (W / 16)) (range (H / 16))
                        ++ [newline +:+ "TOTAL TILES: "
                            +:+ str (Z.of_nat (Z.to_nat (H / 16))
                                     * Z.of_nat (Z.to_nat (W / 16)))])).
  { change (print_tile_reference W H None)
      with (print_tile_reference W H (Some 16)).
    apply print_tile_reference_eq. discriminate. }
  destruct Hsave as [Hsave|Hsave]; rewrite Hsave, main_handler_eq in Hmain;
    cbn [files stdout] in Hmain; eexists;
    (split; [exact Hgrid|]); (split; [exact Hmain|]); cbn [files stdout];
    (split; [rewrite <- !app_assoc; reflexivity|]).
  - split; [auto|]. split; [reflexivity | congruence].
  - split; [intros q Hq; apply emptied_other, Hq|].
    split; [congruence|]. intros _. unfold emptied.
    destruct (files w !! "assets/img/tileset/tileset-v1-numbered.png")
      eqn:Hout; [apply lookup_insert_eq | exact Hout].
Qed.

Lemma main_save_fails_witness :
  exists w',
    main SampleMain.E_readonly SampleMain.is_FileNotFoundError
         SampleMain.exn_text SampleMain.w_tileset = (Ok tt, w')
    /\ files w' = files SampleMain.w_tileset
    /\ last (stdout w')
       = Some ("ERROR: [Errno 13] Permission denied: "
               +:+ "'assets/img/tileset/tileset-v1-numbered.png'").
Proof.
  destruct (main_save_fails SampleMain.E_readonly
              SampleMain.is_FileNotFoundError SampleMain.exn_text
              SampleMain.w_tileset Sample.tileset 64 32
              (OSError "assets/img/tileset/tileset-v1-numbered.png")
              eq_refl eq_refl eq_refl eq_refl (or_introl eq_refl))
    as (grid & total & w' & Hgrid & Hrun & Hout & _ & Hsame & _).
  exists w'. split; [exact Hrun|]. split; [exact (Hsame eq_refl)|].
  rewrite Hout, !last_app. reflexivity.
Defined.

(** X20. When the tileset is an image of at least one tile whose mode
    turns down the fill of the rectangle, the program prints the tileset
    found, the reference grid and the three report lines of the labeller;
    the exception of the first drawing call reaches the handler, whose
    message is all that follows: no success line, no legend, and no file
    is written. *)
Theorem main_draw_fails (E : env) (is_FileNotFoundError : exn -> bool)
    (exn_text : exn -> string) (w : world) (im : image) (W H : Z)
    (e : exn) :
  files w !! main_tileset_path = Some (ImageFile im) ->
  img_size im = (W, H) ->
  16 <= W -> 16 <= H ->
  ink_error E (img_mode im) [0; 0; 0; 180] = Some e ->
  exists grid total,
    print_tile_reference W H None = Ok (header ++ grid ++ [total])
    /\ main E is_FileNotFoundError exn_text w
       = (Ok tt,
          World (files w)
                (stdout w
                 ++ ["Found tileset: " +:+ str W +:+ "x" +:+ str H
                     +:+ " pixels"]
                 ++ header ++ grid ++ [total]
                 ++ [ "Processing tileset: " +:+ str W +:+ "x" +:+ str H
                      +:+ " pixels";
                      "Tiles per row: " +:+ str (W / 16)
                      +:+ ", Tiles per column: " +:+ str (H / 16);
                      "Total tiles: " +:+ str (W / 16 * (H / 16)) ]
                 ++ (if is_FileNotFoundError e
                     then [ "ERROR: Could not find tileset file: "
                            +:+ "assets/img/tileset/tileset-v1.png";
                            "Make sure you're running this from the love-game directory" ]
                     else [ "ERROR: " +:+ exn_text e ]))).
Proof.
  intros Hfile Hsize HW HH Hrect.
  pose proof (main_opened E is_FileNotFoundError exn_text w im Hfile)
    as Hmain. cbv zeta in Hmain.
  assert (Hdraw : draw_error E im = Some e).
  { unfold draw_error, first_ink_error. rewrite Hsize, Hrect.
    cbn [fst snd].
    assert (Hcols : (0 <? W / 16) = true)
      by (apply Z.ltb_lt, Z.div_str_pos; lia).
    assert (Hrows : (0 <? H / 16) = true)
      by (apply Z.ltb_lt, Z.div_str_pos; lia).
    rewrite Hcols, Hrows. reflexivity. }
  rewrite Hdraw, main_handler_eq in Hmain.
  unfold progress in Hmain. rewrite Hsize in Hmain.
  cbn [fst snd files stdout] in Hmain.
  exists (map (row_line (W / 16)) (range (H / 16))).
  exists (newline +:+ "TOTAL TILES: "
          +:+ str (Z.of_nat (Z.to_nat (H / 16))
                   * Z.of_nat (Z.to_nat (W / 16)))).
  split.
  - change (print_tile_reference W H None)
      with (print_tile_reference W H (Some 16)).
    apply print_tile_reference_eq. discriminate.
  - rewrite Hmain, <- !app_assoc. reflexivity.
Qed.

Lemma main_draw_fails_witness :
  exists w',
    main Sample.E SampleMain.is_FileNotFoundError SampleMain.exn_text
         SampleMain.w_indexed = (Ok tt, w')
    /\ files w' = files SampleMain.w_indexed
    /\ last (stdout w')
       = Some "ERROR: cannot add non-opaque RGBA color to RGB palette".
Proof.
  destruct (main_draw_fails Sample.E SampleMain.is_FileNotFoundError
              SampleMain.exn_text SampleMain.w_indexed Sample.indexed 64 32
              (ValueError "cannot add non-opaque RGBA color to RGB palette")
              eq_refl eq_refl ltac:(lia) ltac:(lia) eq_refl)
    as (grid & total & Hgrid & Hrun).
  eexists. split; [exact Hrun|]. split; [reflexivity|].
  cbn [stdout]. rewrite !last_app. reflexivity.
Defined.

(** ** Exceptions that escape number_tileset *)

(** X17. Only the missing path is handled inside [number_tileset].  On
    an image of at least one tile, a colour that the image's mode turns
    down lets the exception of the drawing call escape at the first tile;
    a save that fails lets its exception escape once all tiles are drawn.
    In each case the three report lines are printed and no success line
    follows.  The files are as they were when a drawing call raises and
    when the save is refused before the file is opened; a save that
    breaks after opening it leaves a file that was there without its
    image. *)
Theorem number_tileset_exceptions_escape (E : env) (w : world)
    (tileset_path : string) (output_path : option string) (im : image)
    (W H : Z) (e : exn) :
  files w !! tileset_path = Some (ImageFile im) ->
  img_size im = (W, H) ->
  16 <= W -> 16 <= H ->
  let run := number_tileset E tileset_path output_path w in
  let out := saved_path tileset_path output_path in
  let report :=
    [ "Processing tileset: " +:+ str W +:+ "x" +:+ str H +:+ " pixels";
      "Tiles per row: " +:+ str (W / 16)
      +:+ ", Tiles per column: " +:+ str (H / 16);
      "Total tiles: " +:+ str (W / 16 * (H / 16)) ] in
  (ink_error E (img_mode im) [0; 0; 0; 180] = Some e
   -> run = (Raise e, World (files w) (stdout w ++ report)))
  /\ (ink_error E (img_mode im) [0; 0; 0; 180] = None
      -> ink_error E (img_mode im) [255; 255; 0] = Some e
      -> run = (Raise e, World (files w) (stdout w ++ report)))
  /\ (ink_error E (img_mode im) [0; 0; 0; 180] = None
      -> ink_error E (img_mode im) [255; 255; 0] = None
      -> save_result E out = Refused e
      -> run = (Raise e, World (files w) (stdout w ++ report)))
  /\ (ink_error E (img_mode im) [0; 0; 0; 180] = None
      -> ink_error E (img_mode im) [255; 255; 0] = None
      -> save_result E out = Broken e
      -> run = (Raise e,
                World (match files w !! out with
                       | Some _ => <[out := OtherFile]> (files w)
                       | None => files w
                       end)
                      (stdout w ++ report))).
Proof.
  intros Hfile Hsize HW HH run out report. subst run out report.
  rewrite (number_tileset_image E _ _ _ im Hfile).
  unfold progress, draw_error, first_ink_error. rewrite Hsize.
  cbn [fst snd].
  assert (Hcols : (0 <? W / 16) = true)
    by (apply Z.ltb_lt, Z.div_str_pos; lia).
  assert (Hrows : (0 <? H / 16) = true)
    by (apply Z.ltb_lt, Z.div_str_pos; lia).
  rewrite Hcols, Hrows. cbn [andb].
  repeat split.
  - intros ->. reflexivity.
  - intros -> ->. reflexivity.
  - intros -> -> ->. reflexivity.
  - intros -> -> ->. reflexivity.
Qed.

Lemma number_tileset_exceptions_escape_witness :
  number_tileset Sample.E "dir/indexed.png" None Sample.w0
  = (Raise (ValueError "cannot add non-opaque RGBA color to RGB palette"),
     World (files Sample.w0)
           [ "Processing tileset: 64x32 pixels";
             "Tiles per row: 4, Tiles per column: 2";
             "Total tiles: 8" ]).
Proof.
  destruct (number_tileset_exceptions_escape Sample.E Sample.w0
              "dir/indexed.png" None Sample.indexed 64 32
              (ValueError "cannot add non-opaque RGBA color to RGB palette")
              eq_refl eq_refl ltac:(lia) ltac:(lia))
    as (Hrect & _).
  rewrite (Hrect eq_refl). reflexivity.
Defined.

(** ** Labelling in place *)

(** X18. An output path equal to the source path is taken as it is: on
    an image whose mode takes the two colours, and when that path can be
    saved, the file at the source path is replaced by its labelled copy.
    A second such run starts from the labelled image and draws the same
    calls over it once more, so that earlier drawings are kept under
    later ones. *)
Theorem number_tileset_in_place (E : env) (w : world) (tileset_path : string)
    (im : image) :
  files w !! tileset_path = Some (ImageFile im) ->
  ink_error E (img_mode im) [0; 0; 0; 180] = None ->
  ink_error E (img_mode im) [255; 255; 0] = None ->
  can_save E tileset_path = true ->
  exists w1 w2 calls,
    number_tileset E tileset_path (Some tileset_path) w = (Ok true, w1)
    /\ number_tileset E tileset_path (Some tileset_path) w1 = (Ok true, w2)
    /\ files w1
       = <[tileset_path
           := ImageFile (Image (img_size im) (img_mode im) (img_data im)
                               (img_drawn im ++ calls))]> (files w)
    /\ files w2
       = <[tileset_path
           := ImageFile (Image (img_size im) (img_mode im) (img_data im)
                               (img_drawn im ++ calls ++ calls))]> (files w).
Proof.
  intros Hfile Hrect Htext Hsave.
  assert (Hfile1 :
            <[tileset_path := ImageFile (annotated E im)]> (files w)
              !! tileset_path = Some (ImageFile (annotated E im)))
    by apply lookup_insert_eq.
  assert (Hsaved : save_result E (saved_path tileset_path (Some tileset_path))
                   = Saved) by (apply can_save_Saved, Hsave).
  exists (World (<[tileset_path := ImageFile (annotated E im)]> (files w))
                (stdout w ++ progress im
                 ++ ["SUCCESS: Numbered tileset saved as: "
                     +:+ tileset_path])).
  eexists. exists (labels_of E im).
  split.
  { rewrite (number_tileset_image E _ _ _ im Hfile),
      (draw_error_inks _ _ Hrect Htext), Hsaved. reflexivity. }
  split.
  { rewrite (number_tileset_image E _ _ (World _ _) (annotated E im) Hfile1),
      (draw_error_inks E (annotated E im) Hrect Htext), Hsaved.
    reflexivity. }
  cbn [files saved_path]. split; [reflexivity|].
  rewrite insert_insert_eq. unfold annotated, add_calls, labels_of.
  cbn [img_size img_mode img_data img_drawn]. rewrite <- app_assoc.
  reflexivity.
Qed.

Lemma number_tileset_in_place_witness :
  exists w1 w2 calls,
    number_tileset Sample.E "dir/tileset.png" (Some "dir/tileset.png")
                   Sample.w0 = (Ok true, w1)
    /\ number_tileset Sample.E "dir/tileset.png" (Some "dir/tileset.png") w1
       = (Ok true, w2)
    /\ files w2 !! "dir/tileset.png"
       = Some (ImageFile (Image (64, 32) "RGBA" [7; 7; 7] (calls ++ calls))).
Proof.
  destruct (number_tileset_in_place Sample.E Sample.w0 "dir/tileset.png"
              Sample.tileset eq_refl eq_refl eq_refl eq_refl)
    as (w1 & w2 & calls & H1 & H2 & _ & Hfiles).
  exists w1, w2, calls. split; [exact H1|]. split; [exact H2|].
  rewrite Hfiles. apply lookup_insert_eq.
Defined.

(** ** Columns that line up *)

Lemma str_short (n : Z) : 0 <= n <= 999 -> (String.length (str n) <= 3)%nat.
Proof.
  intros Hn.
  assert (Hall : forallb (fun k => String.length (str (Z.of_nat k)) <=? 3)%nat
                         (seq 0 1000) = true) by (vm_compute; reflexivity).
  rewrite forallb_forall in Hall.
  specialize (Hall (Z.to_nat n)). rewrite Z2Nat.id in Hall by lia.
  apply Nat.leb_le, Hall, in_seq. lia.
Qed.

Lemma length_join_tokens (nums : list Z) :
  (forall n, In n nums -> 0 <= n <= 999) ->
  String.length (join (map (fun n => format_d 3 n +:+ " ") nums))
  = (4 * length nums)%nat.
Proof.
  induction nums as [|n nums IH]; intros Hall; [reflexivity|].
  simpl. rewrite !length_append, format_d_length, IH
    by (intros m Hm; apply Hall; now right).
  pose proof (str_short n (Hall n (or_introl eq_refl))).
  simpl String.length. lia.
Qed.

(** X19. The columns of the printed grid line up as long as the numbers
    fit the width asked for: with at most 99 rows and at most 999 tiles,
    every row line is 8 characters of label and 4 characters a tile
    long. *)
Theorem print_tile_reference_aligned (width height cellSize : Z) :
  0 < cellSize -> 0 <= width -> 0 <= height ->
  height / cellSize <= 99 ->
  height / cellSize * (width / cellSize) <= 999 ->
  exists grid total,
    print_tile_reference width height (Some cellSize)
    = Ok (header ++ grid ++ [total])
    /\ forall line, In line grid ->
         Z.of_nat (String.length line) = 8 + 4 * (width / cellSize).
Proof.
  intros Hcs Hw Hh Hrows Htiles.
  pose proof (Z.div_pos width cellSize Hw Hcs) as Hcols0.
  pose proof (Z.div_pos height cellSize Hh Hcs) as Hrows0.
  do 2 eexists. split; [apply print_tile_reference_eq; lia|].
  intros line Hin. apply in_map_iff in Hin as (row & <- & Hrow).
  apply range_In in Hrow. unfold row_line.
  rewrite length_append, length_join_tokens.
  - unfold row_numbers. rewrite length_map, range_length.
    rewrite !length_append, format_d_length.
    pose proof (str_short (row + 1) ltac:(lia)) as Hlabel.
    assert (Hne : String.length (str (row + 1)) <> 0%nat).
    { intros H0. apply (str_nonempty (row + 1)).
      destruct (str (row + 1)); [reflexivity | discriminate]. }
    assert (Htwo : (String.length (str (row + 1)) <= 2)%nat).
    { assert (Hall : forallb (fun k => String.length (str (Z.of_nat k))
                                        <=? 2)%nat (seq 0 100) = true)
        by (vm_compute; reflexivity).
      rewrite forallb_forall in Hall.
      specialize (Hall (Z.to_nat (row + 1))).
      rewrite Z2Nat.id in Hall by lia.
      apply Nat.leb_le, Hall, in_seq. lia. }
    simpl String.length. lia.
  - intros n Hn. unfold row_numbers in Hn.
    apply in_map_iff in Hn as (col & <- & Hcol).
    apply range_In in Hcol. unfold tile_index. nia.
Qed.

Lemma print_tile_reference_aligned_witness :
  exists grid total,
    print_tile_reference 64 32 (Some 16) = Ok (header ++ grid ++ [total])
    /\ forall line, In line grid -> Z.of_nat (String.length line) = 24.
Proof.
  assert (Hrows : 32 / 16 <= 99) by (change (32 / 16) with 2; lia).
  assert (Htiles : 32 / 16 * (64 / 16) <= 999)
    by (change (32 / 16 * (64 / 16)) with 8; lia).
  exact (print_tile_reference_aligned 64 32 16 ltac:(lia) ltac:(lia)
           ltac:(lia) Hrows Htiles).
Defined.
